(** * The SEO middleware (package seo, file seo.go)

    A shallow embedding of the Traefik middleware that learns the URLs a
    site serves, answers [/sitemap.xml] and [/robots.txt] from what it has
    learnt, and injects a Google Tag Manager snippet into HTML responses.

    Go strings and byte slices are byte sequences: both are [string] here
    (a list of 8-bit characters), so [string(b)] and [[]byte(s)] are the
    identity.  The registry [map[string]struct{}] is a [gset string].
    The mutex is left out: one request is served at a time.  The type
    [statusWriter] of the file is not used by [ServeHTTP] and has no
    counterpart here. *)

From Stdlib Require Import ZArith Ascii.
From stdpp Require Import base tactics option list strings gmap sets sorting pretty.

Local Open Scope Z_scope.
Local Open Scope stdpp_scope.

(** ** Characters that a string literal cannot hold *)

Definition newline : string := String "010" EmptyString.
Definition dquote : string := String "034" EmptyString.

(** ** Package strings *)

Module Strings.

(** [s[:n]] and [s[n:]].  Go panics when [n] exceeds the length; every
    index the program slices with comes from a search in the same
    string. *)
Fixpoint take (n : nat) (s : string) : string :=
  match n, s with
  | S n', String c s' => String c (take n' s')
  | _, _ => EmptyString
  end.

Fixpoint drop (n : nat) (s : string) : string :=
  match n, s with
  | S n', String _ s' => drop n' s'
  | _, _ => s
  end.

Fixpoint HasPrefix (s prefix : string) : bool :=
  match prefix, s with
  | EmptyString, _ => true
  | String p prefix', String c s' => Ascii.eqb c p && HasPrefix s' prefix'
  | String _ _, EmptyString => false
  end.

(** [len(s) >= len(suffix) && s[len(s)-len(suffix):] == suffix] *)
Definition HasSuffix (s suffix : string) : bool :=
  (String.length suffix <=? String.length s)%nat
  && String.eqb (drop (String.length s - String.length suffix) s) suffix.

(** [TrimSuffix] removes the suffix once, when it is there. *)
Definition TrimSuffix (s suffix : string) : string :=
  if HasSuffix s suffix
  then take (String.length s - String.length suffix) s
  else s.

(** Index of the first instance of [substr] in [s]; Go answers -1 when
    there is none, the model [None]. *)
Fixpoint Index (s substr : string) : option nat :=
  if HasPrefix s substr then Some 0%nat
  else match s with
       | EmptyString => None
       | String _ s' => S <$> Index s' substr
       end.

(** [Replace s old new n] for [n >= 0]: the first [n] non-overlapping
    instances of [old], from the left.  (For an empty [old] and [n > 1]
    Go advances by UTF-8 sequences; the program calls it with the
    literal [</head>] and [n = 1].) *)
Fixpoint replaceN (s old new : string) (n : nat) : string :=
  match n with
  | O => s
  | S n' =>
      match Index s old with
      | None => s
      | Some j =>
          take j s +:+ new +:+ replaceN (drop (j + String.length old) s) old new n'
      end
  end.

Definition Replace (s old new : string) (n : nat) : string :=
  if String.eqb old new then s else replaceN s old new n.

Definition lowerByte (c : ascii) : ascii :=
  let n := nat_of_ascii c in
  if ((65 <=? n) && (n <=? 90))%nat then ascii_of_nat (n + 32) else c.

(** [ToLower] on the ASCII letters.  On other runes Go applies
    [unicode.ToLower]; none of them lowers to a letter of [text/html],
    so the prefix test of the program sees the same answer. *)
Fixpoint ToLower (s : string) : string :=
  match s with
  | EmptyString => EmptyString
  | String c s' => String (lowerByte c) (ToLower s')
  end.

(** [EqualFold] against an ASCII word none of whose letters has a
    non-ASCII case variant ([gzip] in the program). *)
Definition EqualFold (s t : string) : bool :=
  String.eqb (ToLower s) (ToLower t).

End Strings.

(** ** net/http: headers, requests, the client's writer *)

(** [http.Header] is [map[string][]string]; keys are kept in canonical
    form.  Every key the middleware names is already canonical. *)
Abbreviation Header := (gmap string (list string)).

Definition Header_Get (h : Header) (key : string) : string :=
  match h !! key with
  | Some (v :: _) => v
  | _ => EmptyString
  end.

Definition Header_Set (h : Header) (key value : string) : Header :=
  <[key := [value]]> h.

Definition Header_Del (h : Header) (key : string) : Header :=
  delete key h.

(** The fields of [*http.Request] that the middleware reads. *)
Record Request := {
  URL_Path : string;
  URL_Scheme : string;
  Host : string;
  req_Header : Header;
}.

(** What the [http.ResponseWriter] handed to the middleware has received:
    its header map, and the calls of [WriteHeader] and [Write] in order. *)
Inductive rwCall :=
| CallWriteHeader (code : Z)
| CallWrite (b : string).

Record ResponseWriter := {
  rw_Header : Header;
  rw_calls : list rwCall;
}.

Definition rw_setHeader (f : Header → Header) (rw : ResponseWriter) : ResponseWriter :=
  {| rw_Header := f (rw_Header rw); rw_calls := rw_calls rw |}.

Definition rw_WriteHeader (rw : ResponseWriter) (code : Z) : ResponseWriter :=
  {| rw_Header := rw_Header rw; rw_calls := rw_calls rw ++ [CallWriteHeader code] |}.

Definition rw_Write (rw : ResponseWriter) (b : string) : ResponseWriter :=
  {| rw_Header := rw_Header rw; rw_calls := rw_calls rw ++ [CallWrite b] |}.

Definition StatusOK : Z := 200.
Definition StatusInternalServerError : Z := 500.

(** [http.Error]: plain-text content type, no sniffing, no stale length,
    the status, and the message on one line. *)
Definition http_Error (rw : ResponseWriter) (error : string) (code : Z) : ResponseWriter :=
  let rw := rw_setHeader (λ h, Header_Del h "Content-Length") rw in
  let rw := rw_setHeader (λ h, Header_Set h "Content-Type" "text/plain; charset=utf-8") rw in
  let rw := rw_setHeader (λ h, Header_Set h "X-Content-Type-Options" "nosniff") rw in
  let rw := rw_WriteHeader rw code in
  rw_Write rw (error +:+ newline).

(** ** Library functions the middleware calls

    regexp, compress/gzip and the character escaping of encoding/xml are
    not part of the repository.  The program is modelled over any
    implementation of them: [regexp_Compile] answers the compiled
    expression or the text of the syntax error; [gzip_NewReader] and
    [io_ReadAll] answer [None] on an error; [gzip_Write] is
    [gzip.NewWriter], [Write], [Close] on a fresh buffer and answers the
    compressed bytes, or [None] when [Write] reports an error. *)

Class GoLib := {
  Regexp : Type;
  regexp_Compile : string → Regexp + string;
  regexp_MatchString : Regexp → string → bool;
  regexp_FindStringIndex : Regexp → string → option (nat * nat);
  gzip_Reader : Type;
  gzip_NewReader : string → option gzip_Reader;
  io_ReadAll : gzip_Reader → option string;
  gzip_Write : string → option string;
  xml_EscapeText : string → string;
}.

(** A call either returns or panics. *)
Inductive result (A : Type) : Type :=
| Return (a : A)
| Panic.
Arguments Return {A} a.
Arguments Panic {A}.

Definition result_bind {A B} (m : result A) (f : A → result B) : result B :=
  match m with
  | Return a => f a
  | Panic => Panic
  end.

(** ** float64, as far as the program uses it

    The only float64 values of the program are the constants [0.8] and
    [1.0].  A value with one decimal is kept as its number of tenths.
    encoding/xml prints a float64 with
    [strconv.FormatFloat(v, 'g', -1, 64)]: the shortest decimal that reads
    back as the same value, in positional notation for values in
    [0.0001, 1000000); an integral value prints without a fractional
    part. *)
Definition float64 := Z.
Definition float_0_8 : float64 := 8.
Definition float_1_0 : float64 := 10.

Definition strconv_FormatFloat (tenths : float64) : string :=
  if tenths `mod` 10 =? 0 then pretty (tenths `div` 10)
  else pretty (tenths `div` 10) +:+ "." +:+ pretty (tenths `mod` 10).

(** ** The templates *)

Definition gtmScriptTemplate (id : string) : string :=
  "<!-- Google Tag Manager -->" +:+ newline +:+
  "<script>(function(w,d,s,l,i){w[l]=w[l]||[];w[l].push({'gtm.start':" +:+ newline +:+
  "new Date().getTime(),event:'gtm.js'});var f=d.getElementsByTagName(s)[0]," +:+ newline +:+
  "j=d.createElement(s),dl=l!='dataLayer'?'&l='+l:'';j.async=true;j.src=" +:+ newline +:+
  "'https://www.googletagmanager.com/gtm.js?id='+i+dl;f.parentNode.insertBefore(j,f);" +:+ newline +:+
  "})(window,document,'script','dataLayer','" +:+ id +:+ "');</script>" +:+ newline +:+
  "<!-- End Google Tag Manager -->".

Definition gtmNoscriptTemplate (id : string) : string :=
  "<!-- Google Tag Manager (noscript) -->" +:+ newline +:+
  "<noscript><iframe src=" +:+ dquote +:+ "https://www.googletagmanager.com/ns.html?id=" +:+ id +:+ dquote +:+ newline +:+
  "height=" +:+ dquote +:+ "0" +:+ dquote +:+ " width=" +:+ dquote +:+ "0" +:+ dquote +:+
  " style=" +:+ dquote +:+ "display:none;visibility:hidden" +:+ dquote +:+ "></iframe></noscript>" +:+ newline +:+
  "<!-- End Google Tag Manager (noscript) -->".

Record Config := {
  SitemapPath : string;
  RobotsPath : string;
  Ignore : list string;
  GTMID : string;
}.

Definition CreateConfig : Config :=
  {| SitemapPath := "/sitemap.xml"; RobotsPath := "/robots.txt"; Ignore := []; GTMID := EmptyString |}.

Definition defaultPatterns : list string :=
  [ "(?i)\.env"; "(?i)\.bak"; "(?i)\.old"; "(?i)\.example"; "(?i)\.exmaple";
    "(?i)\.sample"; "(?i)\.tmpl"; "(?i)\.tpl"; "(?i)\.dist"; "(?i)\.~";
    "(?i)\.php"; "(?i)\.aspx"; "(?i)config"; "(?i)wp-"; "(?i)sitemap";
    "(?i)undefined"; "^/_next/*";
    "\.(jpg|jpeg|png|gif|webp|svg|bmp|tif|tiff|ico|txt|php|exe|css|js|json|pdf|doc|docx|xls|xlsx|ppt|pptx|mp3|mp4|avi|mov|zip|rar|tar|gz|env|html|xml)$" ].

Definition bodyTagPattern : string := "(?i)<body\b[^>]*>".

(** ** The downstream handler

    The handler is handed the capturing writer, whose method set is
    [Header], [Write] and [WriteHeader].  What a handler does with it is the
    sequence of its calls; a change of the header map is a key set to a
    list of values or a key deleted. *)
Inductive handlerCall :=
| HHeaderPut (key : string) (values : list string)
| HHeaderDel (key : string)
| HWrite (b : string)
| HWriteHeader (code : Z).

Definition Handler := Request → list handlerCall.

(** ** modifyingWriter *)

Record modifyingWriter := {
  mw_ResponseWriter : ResponseWriter;
  mw_status : Z;
  mw_body : string;
}.

Definition modifyingWriter_Write (w : modifyingWriter) (b : string) : modifyingWriter :=
  {| mw_ResponseWriter := mw_ResponseWriter w;
     mw_status := if mw_status w =? 0 then StatusOK else mw_status w;
     mw_body := mw_body w +:+ b |}.

Definition modifyingWriter_WriteHeader (w : modifyingWriter) (code : Z) : modifyingWriter :=
  {| mw_ResponseWriter := mw_ResponseWriter w;
     mw_status := code;
     mw_body := mw_body w |}.

(** [Header] is promoted from the embedded writer: the handler changes the
    client's header map itself. *)
Definition modifyingWriter_setHeader (f : Header → Header) (w : modifyingWriter) : modifyingWriter :=
  {| mw_ResponseWriter := rw_setHeader f (mw_ResponseWriter w);
     mw_status := mw_status w;
     mw_body := mw_body w |}.

Definition handle (w : modifyingWriter) (c : handlerCall) : modifyingWriter :=
  match c with
  | HHeaderPut key values => modifyingWriter_setHeader (λ h, <[key := values]> h) w
  | HHeaderDel key => modifyingWriter_setHeader (λ h, delete key h) w
  | HWrite b => modifyingWriter_Write w b
  | HWriteHeader code => modifyingWriter_WriteHeader w code
  end.

(** [next.ServeHTTP(mw, req)] *)
Definition Handler_ServeHTTP (next : Handler) (mw : modifyingWriter) (req : Request) : modifyingWriter :=
  fold_left handle (next req) mw.

(** ** The middleware *)

Section seo.
Context `{L : GoLib}.

Record sitemapGenerator := {
  next : Handler;
  name : string;
  sitemapPath : string;
  robotsPath : string;
  ignores : list Regexp;
  paths : gset string;
  gtmID : string;
}.

Definition regexp_MustCompile (str : string) : result Regexp :=
  match regexp_Compile str with
  | inl re => Return re
  | inr _ => Panic
  end.

(** The loop over [config.Ignore]: the first pattern that does not
    compile ends [New] with an error. *)
Fixpoint compileUser (patterns : list string) (ignores : list Regexp) : list Regexp + string :=
  match patterns with
  | [] => inl ignores
  | pattern :: rest =>
      match regexp_Compile pattern with
      | inr err => inr ("invalid ignore regex " +:+ pattern +:+ ": " +:+ err)
      | inl re => compileUser rest (ignores ++ [re])
      end
  end.

(** The loop over [defaultPatterns]. *)
Fixpoint compileDefaults (patterns : list string) (ignores : list Regexp) : result (list Regexp) :=
  match patterns with
  | [] => Return ignores
  | pattern :: rest =>
      result_bind (regexp_MustCompile pattern)
                  (λ re, compileDefaults rest (ignores ++ [re]))
  end.

(** [New] answers the handler ([inl]) or the error ([inr]). *)
Definition New (next : Handler) (config : Config) (name : string)
  : result (sitemapGenerator + string) :=
  let SitemapPath' :=
    if String.eqb (SitemapPath config) EmptyString then "/sitemap.xml" else SitemapPath config in
  let RobotsPath' :=
    if String.eqb (RobotsPath config) EmptyString then "/robots.txt" else RobotsPath config in
  match compileUser (Ignore config) [] with
  | inr err => Return (inr err)
  | inl ignores =>
      result_bind (compileDefaults defaultPatterns ignores) (λ ignores,
        Return (inl {| next := next;
                       name := name;
                       sitemapPath := SitemapPath';
                       robotsPath := RobotsPath';
                       ignores := ignores;
                       paths := ∅;
                       gtmID := GTMID config |}))
  end.

(** [X-Forwarded-Proto], or the scheme of the request URL. *)
Definition requestScheme (req : Request) : string :=
  let scheme := Header_Get (req_Header req) "X-Forwarded-Proto" in
  if String.eqb scheme EmptyString then URL_Scheme req else scheme.

Record pathInfo := { loc : string }.

Record URL := {
  Loc : string;
  Lastmod : string;
  Priority : float64;
}.

Record URLSet := {
  Xmlns : string;
  URLs : list URL;
}.

(** One round of the loop that filters by host. *)
Definition filterStep (base : string) (acc : list pathInfo * bool) (info : pathInfo)
  : list pathInfo * bool :=
  let '(filteredInfos, hasRoot) := acc in
  if Strings.HasPrefix (loc info) (base +:+ "/") || String.eqb (loc info) base
  then (filteredInfos ++ [info], if String.eqb (loc info) base then true else hasRoot)
  else (filteredInfos, hasRoot).

(** [filteredInfos] and [base] after the branch on [req != nil]. *)
Definition filterInfos (req : option Request) (infos : list pathInfo) : list pathInfo * string :=
  match req with
  | Some req =>
      let base := requestScheme req +:+ "://" +:+ Host req in
      let '(filteredInfos, hasRoot) := fold_left (filterStep base) infos ([], false) in
      (if hasRoot then filteredInfos else filteredInfos ++ [{| loc := base |}], base)
  | None => (infos, EmptyString)
  end.

(** [filteredInfos[i].loc < filteredInfos[j].loc] orders by bytes.  The
    elements carry nothing but [loc], so every sorting algorithm gives
    the same slice. *)
Definition pathInfo_le (a b : pathInfo) : Prop := (loc a ≤ loc b)%string.

#[local] Instance pathInfo_le_dec : RelDecision pathInfo_le.
Proof. intros a b. unfold pathInfo_le. apply _. Defined.

Definition sort_Slice (infos : list pathInfo) : list pathInfo :=
  merge_sort pathInfo_le infos.

Definition priorityOf (base : string) (info : pathInfo) : float64 :=
  if negb (String.eqb base EmptyString) && String.eqb (loc info) base
  then float_1_0 else float_0_8.

(** The value handed to [xml.MarshalIndent]; [infos] is the registry in
    the order the map iteration delivered it, [lastmodStr] the formatted
    instant of the call. *)
Definition buildURLSet (infos : list pathInfo) (req : option Request) (lastmodStr : string)
  : URLSet :=
  let '(filteredInfos, base) := filterInfos req infos in
  let filteredInfos := sort_Slice filteredInfos in
  {| Xmlns := "http://www.sitemaps.org/schemas/sitemap/0.9";
     URLs := (λ info, {| Loc := loc info;
                         Lastmod := lastmodStr;
                         Priority := priorityOf base info |}) <$> filteredInfos |}.

(** encoding/xml on a [URLSet], indent of two spaces, empty prefix. *)
Definition marshalPriority (u : URL) : string :=
  "<priority>" +:+ strconv_FormatFloat (Priority u) +:+ "</priority>".

Definition marshalURL (u : URL) : string :=
  newline +:+ "  <url>" +:+
  newline +:+ "    <loc>" +:+ xml_EscapeText (Loc u) +:+ "</loc>" +:+
  newline +:+ "    <lastmod>" +:+ xml_EscapeText (Lastmod u) +:+ "</lastmod>" +:+
  newline +:+ "    " +:+ marshalPriority u +:+
  newline +:+ "  </url>".

Definition xml_MarshalIndent (v : URLSet) : option string :=
  Some ("<urlset xmlns=" +:+ dquote +:+ xml_EscapeText (Xmlns v) +:+ dquote +:+ ">" +:+
        String.concat EmptyString (marshalURL <$> URLs v) +:+
        (match URLs v with [] => EmptyString | _ => newline end) +:+
        "</urlset>").

Definition xml_Header : string :=
  "<?xml version=" +:+ dquote +:+ "1.0" +:+ dquote +:+
  " encoding=" +:+ dquote +:+ "UTF-8" +:+ dquote +:+ "?>" +:+ newline.

(** The map is iterated in an order of the runtime's choosing;
    [elements] is one such order, and [buildURLSet] does not depend on
    it (lemma [buildURLSet_order]). *)
Definition snapshot (sg : sitemapGenerator) : list pathInfo :=
  (λ p, {| loc := p |}) <$> elements (paths sg).

Definition buildSitemapXML (sg : sitemapGenerator) (req : option Request) (lastmodStr : string)
  : option string :=
  let urlset := buildURLSet (snapshot sg) req lastmodStr in
  match xml_MarshalIndent urlset with
  | None => None
  | Some output => Some (xml_Header +:+ output)
  end.

Definition buildRobotsTxt (sg : sitemapGenerator) (req : Request) : string :=
  let scheme := requestScheme req in
  let host := Host req in
  let sitemapURL := scheme +:+ "://" +:+ host +:+ sitemapPath sg in
  "User-agent: *" +:+ newline +:+ "Sitemap: " +:+ sitemapURL +:+ newline.

(** What one call of [ServeHTTP] leaves behind: the generator (its
    registry may have grown), the client's writer, and the requests that
    were handed to [sg.next]. *)
Record served := {
  served_sg : sitemapGenerator;
  served_rw : ResponseWriter;
  served_next : list Request;
}.

(** [bodyBytes] after the gzip stage; [None] where the code writes the
    buffered bytes and returns ([gzip.NewReader] or [io.ReadAll] failed). *)
Definition gunzipBody (isGzipped : bool) (bodyBytes : string) : option string :=
  if isGzipped then
    match gzip_NewReader bodyBytes with
    | None => None
    | Some reader =>
        match io_ReadAll reader with
        | None => None
        | Some decompressed => Some decompressed
        end
    end
  else Some bodyBytes.

(** The first statement of the rewrite branch. *)
Definition insertScript (gtmID bodyStr : string) : string :=
  let gtmScript := gtmScriptTemplate gtmID in
  Strings.Replace bodyStr "</head>" (gtmScript +:+ "</head>") 1.

(** The insertion after the opening body tag.  A slice index beyond the
    length panics in Go. *)
Definition insertNoscript (gtmID modified : string) : result string :=
  let gtmNoscript := gtmNoscriptTemplate gtmID in
  result_bind (regexp_MustCompile bodyTagPattern) (λ re,
    match regexp_FindStringIndex re modified with
    | Some (_, insertPos) =>
        if (insertPos <=? String.length modified)%nat
        then Return (Strings.take insertPos modified +:+ gtmNoscript
                     +:+ Strings.drop insertPos modified)
        else Panic
    | None => Return modified
    end).

(** [bodyBytes] after the optional recompression; [None] where
    [writer.Write] fails. *)
Definition gzipBody (isGzipped : bool) (bodyBytes : string) : option string :=
  if isGzipped then gzip_Write bodyBytes else Some bodyBytes.

Definition record (fullURL : string) (sg : sitemapGenerator) : sitemapGenerator :=
  {| next := next sg; name := name sg; sitemapPath := sitemapPath sg;
     robotsPath := robotsPath sg; ignores := ignores sg;
     paths := {[fullURL]} ∪ paths sg;
     gtmID := gtmID sg |}.

Definition ServeHTTP (sg : sitemapGenerator) (rw : ResponseWriter) (req : Request)
    (now : string) : result served :=
  let path := URL_Path req in
  if String.eqb path (sitemapPath sg) then
    match buildSitemapXML sg (Some req) now with
    | None =>
        Return {| served_sg := sg;
                  served_rw := http_Error rw "Internal Server Error" StatusInternalServerError;
                  served_next := [] |}
    | Some xmlContent =>
        let rw := rw_setHeader (λ h, Header_Set h "Content-Type" "application/xml") rw in
        let rw := rw_WriteHeader rw StatusOK in
        let rw := rw_Write rw xmlContent in
        Return {| served_sg := sg; served_rw := rw; served_next := [] |}
    end
  else if String.eqb path (robotsPath sg) then
    let robotsContent := buildRobotsTxt sg req in
    let rw := rw_setHeader (λ h, Header_Set h "Content-Type" "text/plain") rw in
    let rw := rw_WriteHeader rw StatusOK in
    let rw := rw_Write rw robotsContent in
    Return {| served_sg := sg; served_rw := rw; served_next := [] |}
  else
    let ignored := existsb (λ re, regexp_MatchString re path) (ignores sg) in
    let scheme := requestScheme req in
    let host := Host req in
    let fullURL := scheme +:+ "://" +:+ host +:+ Strings.TrimSuffix path "/" in
    let mw := {| mw_ResponseWriter := rw; mw_status := 0; mw_body := EmptyString |} in
    let mw := Handler_ServeHTTP (next sg) mw req in
    let status := if mw_status mw =? 0 then StatusOK else mw_status mw in
    let rw := mw_ResponseWriter mw in
    let contentType := Header_Get (rw_Header rw) "Content-Type" in
    let contentEncoding := Header_Get (rw_Header rw) "Content-Encoding" in
    let isGzipped := Strings.EqualFold contentEncoding "gzip" in
    match gunzipBody isGzipped (mw_body mw) with
    | None =>
        let rw := rw_WriteHeader rw status in
        let rw := rw_Write rw (mw_body mw) in
        Return {| served_sg := sg; served_rw := rw; served_next := [req] |}
    | Some bodyStr =>
        if negb (String.eqb (gtmID sg) EmptyString)
           && Strings.HasPrefix (Strings.ToLower contentType) "text/html"
           && (status =? StatusOK)
        then
          result_bind (insertNoscript (gtmID sg) (insertScript (gtmID sg) bodyStr))
            (λ modified,
              match gzipBody isGzipped modified with
              | None =>
                  let rw := rw_WriteHeader rw status in
                  let rw := rw_Write rw (mw_body mw) in
                  Return {| served_sg := sg; served_rw := rw; served_next := [req] |}
              | Some bodyBytes =>
                  let rw := rw_setHeader (λ h, Header_Del h "Content-Length") rw in
                  let rw := rw_WriteHeader rw status in
                  let rw := rw_Write rw bodyBytes in
                  Return {| served_sg :=
                              if negb ignored && (status =? StatusOK)
                              then record fullURL sg else sg;
                            served_rw := rw; served_next := [req] |}
              end)
        else
          let rw := rw_WriteHeader rw status in
          let rw := rw_Write rw (mw_body mw) in
          Return {| served_sg :=
                      if negb ignored && (status =? StatusOK)
                      then record fullURL sg else sg;
                    served_rw := rw; served_next := [req] |}
    end.

End seo.

(** ** A reference implementation of the library functions

    Used to run the model on examples.  Regular expressions are compiled
    from a table that holds the patterns of the program, written out as
    syntax trees, and matched by backtracking, which is the leftmost-first
    rule of package regexp.  The gzip reader validates the ten-byte member
    header and nothing more. *)

Module Ref.

Inductive rx :=
| Lit (fold : bool) (s : string)
| Class_ (neg : bool) (cs : string)
| StarClass (neg : bool) (cs : string)
| Seq (r1 r2 : rx)
| Alt (r1 r2 : rx)
| BeginText
| EndText
| WordBoundary.

Definition isWordByte (c : ascii) : bool :=
  let n := nat_of_ascii c in
  (((48 <=? n) && (n <=? 57)) || ((65 <=? n) && (n <=? 90))
   || (n =? 95) || ((97 <=? n) && (n <=? 122)))%nat.

Definition isWord (c : option ascii) : bool :=
  match c with
  | Some c => isWordByte c
  | None => false
  end.

Definition eqByte (fold : bool) (a b : ascii) : bool :=
  if fold then Ascii.eqb (Strings.lowerByte a) (Strings.lowerByte b) else Ascii.eqb a b.

Fixpoint inClass (c : ascii) (cs : string) : bool :=
  match cs with
  | EmptyString => false
  | String d cs' => Ascii.eqb c d || inClass c cs'
  end.

Definition head (s : string) : option ascii :=
  match s with
  | EmptyString => None
  | String c _ => Some c
  end.

(** The literal [p] at the front of [s]: the byte before the rest, and
    the rest. *)
Fixpoint lit (fold : bool) (p s : string) (prev : option ascii) : option (option ascii * string) :=
  match p, s with
  | EmptyString, _ => Some (prev, s)
  | String a p', String c s' => if eqByte fold c a then lit fold p' s' (Some c) else None
  | String _ _, EmptyString => None
  end.

(** [run r prev s k]: match [r] at the front of [s], where [prev] is the
    byte before [s], and go on with [k]; alternatives in order of
    preference. *)
Fixpoint run {A} (r : rx) (prev : option ascii) (s : string)
    (k : option ascii → string → option A) : option A :=
  match r with
  | Lit fold p =>
      match lit fold p s prev with
      | Some (prev', s') => k prev' s'
      | None => None
      end
  | Class_ neg cs =>
      match s with
      | String c s' => if xorb neg (inClass c cs) then k (Some c) s' else None
      | EmptyString => None
      end
  | StarClass neg cs =>
      (fix star (prev : option ascii) (s : string) : option A :=
         match s with
         | String c s' =>
             if xorb neg (inClass c cs)
             then match star (Some c) s' with
                  | Some a => Some a
                  | None => k prev s
                  end
             else k prev s
         | EmptyString => k prev s
         end) prev s
  | Seq r1 r2 => run r1 prev s (λ prev' s', run r2 prev' s' k)
  | Alt r1 r2 =>
      match run r1 prev s k with
      | Some a => Some a
      | None => run r2 prev s k
      end
  | BeginText => match prev with None => k prev s | Some _ => None end
  | EndText => match s with EmptyString => k prev s | String _ _ => None end
  | WordBoundary => if xorb (isWord prev) (isWord (head s)) then k prev s else None
  end.

Fixpoint findFrom (r : rx) (prev : option ascii) (s : string) (pos : nat) : option (nat * nat) :=
  match run r prev s (λ _ rest, Some rest) with
  | Some rest => Some (pos, (pos + (String.length s - String.length rest))%nat)
  | None =>
      match s with
      | String c s' => findFrom r (Some c) s' (S pos)
      | EmptyString => None
      end
  end.

Definition FindStringIndex (r : rx) (s : string) : option (nat * nat) :=
  findFrom r None s 0.

Definition MatchString (r : rx) (s : string) : bool :=
  match FindStringIndex r s with
  | Some _ => true
  | None => false
  end.

Definition oneOf (words : list string) : rx :=
  foldr (λ w r, Alt (Lit false w) r) (Class_ false EmptyString) words.

Definition extensions : list string :=
  [ "jpg"; "jpeg"; "png"; "gif"; "webp"; "svg"; "bmp"; "tif"; "tiff"; "ico";
    "txt"; "php"; "exe"; "css"; "js"; "json"; "pdf"; "doc"; "docx"; "xls";
    "xlsx"; "ppt"; "pptx"; "mp3"; "mp4"; "avi"; "mov"; "zip"; "rar"; "tar";
    "gz"; "env"; "html"; "xml" ].

(** The patterns the reference compiler knows, with their syntax trees:
    the built-in ignore patterns, the body tag, and the two user patterns
    of the README. *)
Definition syntax : list (string * rx) :=
  [ ("(?i)\.env", Lit true ".env");
    ("(?i)\.bak", Lit true ".bak");
    ("(?i)\.old", Lit true ".old");
    ("(?i)\.example", Lit true ".example");
    ("(?i)\.exmaple", Lit true ".exmaple");
    ("(?i)\.sample", Lit true ".sample");
    ("(?i)\.tmpl", Lit true ".tmpl");
    ("(?i)\.tpl", Lit true ".tpl");
    ("(?i)\.dist", Lit true ".dist");
    ("(?i)\.~", Lit true ".~");
    ("(?i)\.php", Lit true ".php");
    ("(?i)\.aspx", Lit true ".aspx");
    ("(?i)config", Lit true "config");
    ("(?i)wp-", Lit true "wp-");
    ("(?i)sitemap", Lit true "sitemap");
    ("(?i)undefined", Lit true "undefined");
    ("^/_next/*", Seq BeginText (Seq (Lit false "/_next") (StarClass false "/")));
    ("\.(jpg|jpeg|png|gif|webp|svg|bmp|tif|tiff|ico|txt|php|exe|css|js|json|pdf|doc|docx|xls|xlsx|ppt|pptx|mp3|mp4|avi|mov|zip|rar|tar|gz|env|html|xml)$",
      Seq (Lit false ".") (Seq (oneOf extensions) EndText));
    ("(?i)<body\b[^>]*>",
      Seq (Lit true "<body") (Seq WordBoundary (Seq (StarClass true ">") (Lit false ">"))));
    ("^/admin/.*", Seq BeginText (Seq (Lit false "/admin/") (StarClass true newline)));
    (".*\.log$", Seq (StarClass true newline) (Seq (Lit false ".log") EndText)) ].

(** Patterns package regexp rejects, with its message. *)
Definition rejected : list (string * string) :=
  [ ("(", "error parsing regexp: missing closing ): `(`");
    ("[", "error parsing regexp: missing closing ]: `[`");
    ("*", "error parsing regexp: missing argument to repetition operator: `*`") ].

Fixpoint assoc {A} (key : string) (l : list (string * A)) : option A :=
  match l with
  | [] => None
  | (k, v) :: l' => if String.eqb key k then Some v else assoc key l'
  end.

Definition Compile (expr : string) : rx + string :=
  match assoc expr syntax with
  | Some r => inl r
  | None =>
      match assoc expr rejected with
      | Some err => inr err
      | None => inr "pattern outside the reference table"
      end
  end.

(** The member header: magic bytes 0x1f 0x8b, method 8 (deflate), ten
    bytes in all.  The reference library has neither inflater nor
    deflater: reading the data of a member and compressing report an
    error.  The examples stay with bodies that are no gzip members. *)
Definition gzipMagic : string := String "031" (String "139" (String "008" EmptyString)).

Definition NewReader (b : string) : option string :=
  if Strings.HasPrefix b gzipMagic && (10 <=? String.length b)%nat then Some b else None.

Definition ReadAll (r : string) : option string := None.

Definition Write (b : string) : option string := None.

Definition replacementChar : string := String "239" (String "191" (String "189" EmptyString)).

(** [xml.EscapeText] on ASCII; bytes from 0x80 on are copied, which is
    what Go does for well-formed UTF-8 in the XML character range. *)
Definition escapeByte (c : ascii) : string :=
  let n := nat_of_ascii c in
  if (n =? 34)%nat then "&#34;"
  else if (n =? 39)%nat then "&#39;"
  else if (n =? 38)%nat then "&amp;"
  else if (n =? 60)%nat then "&lt;"
  else if (n =? 62)%nat then "&gt;"
  else if (n =? 9)%nat then "&#x9;"
  else if (n =? 10)%nat then "&#xA;"
  else if (n =? 13)%nat then "&#xD;"
  else if (n <? 32)%nat then replacementChar
  else String c EmptyString.

Fixpoint EscapeText (s : string) : string :=
  match s with
  | EmptyString => EmptyString
  | String c s' => escapeByte c +:+ EscapeText s'
  end.

#[export] Instance lib : GoLib := {|
  Regexp := rx;
  regexp_Compile := Compile;
  regexp_MatchString := MatchString;
  regexp_FindStringIndex := FindStringIndex;
  gzip_Reader := string;
  gzip_NewReader := NewReader;
  io_ReadAll := ReadAll;
  gzip_Write := Write;
  xml_EscapeText := EscapeText;
|}.

End Ref.

(** ** Reading a handler's calls

    What the middleware observes of the downstream handler, as functions of
    the calls the handler makes. *)

(** The bytes the handler wrote, in order. *)
Fixpoint written (calls : list handlerCall) : string :=
  match calls with
  | [] => EmptyString
  | HWrite b :: calls' => b +:+ written calls'
  | _ :: calls' => written calls'
  end.

(** The argument of the last [WriteHeader] call, if there is one. *)
Fixpoint lastWriteHeader (calls : list handlerCall) : option Z :=
  match calls with
  | [] => None
  | c :: calls' =>
      match lastWriteHeader calls' with
      | Some code => Some code
      | None => match c with HWriteHeader code => Some code | _ => None end
      end
  end.

(** The header map after the handler's calls. *)
Definition headersAfter (calls : list handlerCall) (h : Header) : Header :=
  rw_Header (mw_ResponseWriter
    (fold_left handle calls
       {| mw_ResponseWriter := {| rw_Header := h; rw_calls := [] |};
          mw_status := 0; mw_body := EmptyString |})).

(** [mw.status] after the handler returned and the default was applied:
    the status of the decision and of the recording. *)
Definition observedStatus (calls : list handlerCall) : Z :=
  let mw := fold_left handle calls
              {| mw_ResponseWriter := {| rw_Header := ∅; rw_calls := [] |};
                 mw_status := 0; mw_body := EmptyString |} in
  if mw_status mw =? 0 then StatusOK else mw_status mw.

(** The default of an unset status. *)
Definition defaulted (status : Z) : Z := if status =? 0 then StatusOK else status.

(** The test of the filtering loop. *)
Definition keeps (base : string) (u : string) : bool :=
  Strings.HasPrefix u (base +:+ "/") || String.eqb u base.

Definition isRoot (base : string) (u : string) : bool := String.eqb u base.

Section runs.
Context `{L : GoLib}.

Definition with_next (h : Handler) (sg : sitemapGenerator) : sitemapGenerator :=
  {| next := h; name := name sg; sitemapPath := sitemapPath sg;
     robotsPath := robotsPath sg; ignores := ignores sg;
     paths := paths sg; gtmID := gtmID sg |}.

(** The generators a freshly built one can become: requests are served
    one after the other, each by whatever the downstream handler does
    at that moment. *)
Inductive reachable (sg0 : sitemapGenerator) : sitemapGenerator → Prop :=
| reachable_new : reachable sg0 sg0
| reachable_serve sg h rw req now sv :
    reachable sg0 sg →
    ServeHTTP (with_next h sg) rw req now = Return sv →
    reachable sg0 (served_sg sv).

(** The same generators, with the requests that were served on the way,
    the oldest first. *)
Inductive servedFrom (sg0 : sitemapGenerator) : list Request → sitemapGenerator → Prop :=
| servedFrom_new : servedFrom sg0 [] sg0
| servedFrom_serve reqs sg h rw req now sv :
    servedFrom sg0 reqs sg →
    ServeHTTP (with_next h sg) rw req now = Return sv →
    servedFrom sg0 (reqs ++ [req]) (served_sg sv).

Definition fullURL (req : Request) : string :=
  requestScheme req +:+ "://" +:+ Host req +:+ Strings.TrimSuffix (URL_Path req) "/".

Definition isIgnored (sg : sitemapGenerator) (path : string) : bool :=
  existsb (λ re, regexp_MatchString re path) (ignores sg).

Definition isGzipped (h : Header) : bool :=
  Strings.EqualFold (Header_Get h "Content-Encoding") "gzip".

Definition isHTML (h : Header) : bool :=
  Strings.HasPrefix (Strings.ToLower (Header_Get h "Content-Type")) "text/html".

Definition is_Return (r : result served) : bool :=
  match r with
  | Return _ => true
  | Panic => false
  end.

(** What a call leaves behind, when it returns. *)
Definition returned (r : result served) (sg : sitemapGenerator) : served :=
  match r with
  | Return sv => sv
  | Panic => {| served_sg := sg;
                served_rw := {| rw_Header := ∅; rw_calls := [] |};
                served_next := [] |}
  end.

(** What the client and the registry show after a call: the calls on the
    client's writer and the URLs of the registry. *)
Definition outcome (r : result served) : option (list rwCall * list string) :=
  match r with
  | Return sv => Some (rw_calls (served_rw sv), elements (paths (served_sg sv)))
  | Panic => None
  end.

(** The branches of a forwarded request that return before the
    recording: a gzip body that cannot be read, and a rewritten body
    that cannot be compressed. *)
Definition returnsEarly (sg : sitemapGenerator) (h : Header) (calls : list handlerCall) : bool :=
  match gunzipBody (isGzipped h) (written calls) with
  | None => true
  | Some bodyStr =>
      negb (String.eqb (gtmID sg) EmptyString) && isHTML h
      && (observedStatus calls =? StatusOK)
      && match insertNoscript (gtmID sg) (insertScript (gtmID sg) bodyStr) with
         | Return modified =>
             match gzipBody (isGzipped h) modified with
             | None => true
             | Some _ => false
             end
         | Panic => false
         end
  end.
End runs.

(** ** Examples to run the model on *)

Module Demo.
Import Ref.

(** The generator [New] builds, over the reference library. *)
Definition generator (h : Handler) (config : Config) : sitemapGenerator :=
  match New h config "seo" with
  | Return (inl sg) => sg
  | _ => {| next := h; name := "seo"; sitemapPath := EmptyString;
            robotsPath := EmptyString; ignores := []; paths := ∅;
            gtmID := EmptyString |}
  end.

Definition get (path : string) : Request :=
  {| URL_Path := path; URL_Scheme := "http"; Host := "example.com";
     req_Header := {[ "X-Forwarded-Proto" := ["https"] ]} |}.

Definition client : ResponseWriter := {| rw_Header := ∅; rw_calls := [] |}.

Definition instant : string := "2026-01-01T00:00:00Z".

Definition withGTM : Config :=
  {| SitemapPath := "/sitemap.xml"; RobotsPath := "/robots.txt";
     Ignore := ["^/admin/.*"]; GTMID := "GTM-0000000" |}.

(** A page, served as HTML with the default status. *)
Definition page : string := "<html><head></head><body>hi</body></html>".

Definition htmlHandler : Handler :=
  λ _, [HHeaderPut "Content-Type" ["text/html; charset=utf-8"]; HWrite page].

(** The same page announced as gzip, the body not being a gzip stream. *)
Definition brokenGzipHandler : Handler :=
  λ _, [HHeaderPut "Content-Type" ["text/html; charset=utf-8"];
        HHeaderPut "Content-Encoding" ["gzip"];
        HWrite page].

Definition jsonHandler : Handler :=
  λ _, [HHeaderPut "Content-Type" ["application/json"]; HWriteHeader 201; HWrite "{}"].

Definition shop : sitemapGenerator := generator htmlHandler CreateConfig.

Definition afterProducts : served :=
  returned (ServeHTTP shop client (get "/products") instant) shop.
End Demo.

(** ** statusWriter

    The writer that forwards every call to the client and remembers the
    status.  [ServeHTTP] of seo.go no longer uses it; the earlier
    [ServeHTTP] of the package (module [Streaming] below) does. *)

Record statusWriter := {
  sw_ResponseWriter : ResponseWriter;
  sw_status : Z;
}.

Definition statusWriter_Header (w : statusWriter) : Header :=
  rw_Header (sw_ResponseWriter w).

Definition statusWriter_Write (w : statusWriter) (b : string) : statusWriter :=
  {| sw_ResponseWriter := rw_Write (sw_ResponseWriter w) b;
     sw_status := if sw_status w =? 0 then StatusOK else sw_status w |}.

Definition statusWriter_WriteHeader (w : statusWriter) (code : Z) : statusWriter :=
  {| sw_ResponseWriter := rw_WriteHeader (sw_ResponseWriter w) code;
     sw_status := if sw_status w =? 0 then code else sw_status w |}.

(** A change of the map [Header] returns. *)
Definition statusWriter_setHeader (f : Header → Header) (w : statusWriter) : statusWriter :=
  {| sw_ResponseWriter := rw_setHeader f (sw_ResponseWriter w);
     sw_status := sw_status w |}.

Definition statusWriter_handle (w : statusWriter) (c : handlerCall) : statusWriter :=
  match c with
  | HHeaderPut key values => statusWriter_setHeader (λ h, <[key := values]> h) w
  | HHeaderDel key => statusWriter_setHeader (λ h, delete key h) w
  | HWrite b => statusWriter_Write w b
  | HWriteHeader code => statusWriter_WriteHeader w code
  end.

(** [next.ServeHTTP(sw, req)] *)
Definition Handler_ServeHTTP_sw (next : Handler) (sw : statusWriter) (req : Request) : statusWriter :=
  fold_left statusWriter_handle (next req) sw.

(** A handler that is handed the client's writer itself. *)
Definition rw_handle (rw : ResponseWriter) (c : handlerCall) : ResponseWriter :=
  match c with
  | HHeaderPut key values => rw_setHeader (λ h, <[key := values]> h) rw
  | HHeaderDel key => rw_setHeader (λ h, delete key h) rw
  | HWrite b => rw_Write rw b
  | HWriteHeader code => rw_WriteHeader rw code
  end.

(** [next.ServeHTTP(rw, req)] *)
Definition Handler_ServeHTTP_rw (next : Handler) (rw : ResponseWriter) (req : Request) : ResponseWriter :=
  fold_left rw_handle (next req) rw.

(** The calls of a handler that reach a writer's [WriteHeader] and
    [Write], in order. *)
Definition clientCall (c : handlerCall) : option rwCall :=
  match c with
  | HWrite b => Some (CallWrite b)
  | HWriteHeader code => Some (CallWriteHeader code)
  | _ => None
  end.

Definition clientCalls (calls : list handlerCall) : list rwCall := omap clientCall calls.

(** The first call that settles a status: a [WriteHeader] with a code
    other than 0, or a [Write]; 0 when there is none. *)
Fixpoint firstStatus (calls : list handlerCall) : Z :=
  match calls with
  | [] => 0
  | HWriteHeader code :: calls' => if code =? 0 then firstStatus calls' else code
  | HWrite _ :: _ => StatusOK
  | _ :: calls' => firstStatus calls'
  end.

(** ** The branches of a forwarded request *)

Section branches.
Context `{L : GoLib}.

(** The test of the rewrite branch. *)
Definition rewrites (sg : sitemapGenerator) (h : Header) (calls : list handlerCall) : bool :=
  negb (String.eqb (gtmID sg) EmptyString) && isHTML h && (observedStatus calls =? StatusOK).

(** The client's writer after the handler returned: its header map is
    what the handler made of it, nothing was written yet. *)
Definition afterHandler (rw : ResponseWriter) (calls : list handlerCall) : ResponseWriter :=
  {| rw_Header := headersAfter calls (rw_Header rw); rw_calls := rw_calls rw |}.

(** The buffered response written as it is. *)
Definition through (rw : ResponseWriter) (calls : list handlerCall) : ResponseWriter :=
  rw_Write (rw_WriteHeader (afterHandler rw calls) (observedStatus calls)) (written calls).

(** The generator after the recording block. *)
Definition recorded (sg : sitemapGenerator) (req : Request) : sitemapGenerator :=
  if negb (isIgnored sg (URL_Path req)) && (observedStatus (next sg req) =? StatusOK)
  then record (fullURL req) sg else sg.

End branches.

(** ** The earlier ServeHTTP of package seo (src/unnamed/part_000)

    The version of the middleware before the analytics rewrite.  Its
    [Config], [New], [buildSitemapXML] and [buildRobotsTxt] are those of
    seo.go without the analytics ID; the generator below is the one of
    seo.go, whose [gtmID] this version does not read. *)

Module Streaming.
Section streaming.
Context `{L : GoLib}.

Definition ServeHTTP (sg : sitemapGenerator) (rw : ResponseWriter) (req : Request)
    (now : string) : served :=
  let path := URL_Path req in
  if String.eqb path (sitemapPath sg) then
    match buildSitemapXML sg (Some req) now with
    | None =>
        {| served_sg := sg;
           served_rw := http_Error rw "Internal Server Error" StatusInternalServerError;
           served_next := [] |}
    | Some xmlContent =>
        let rw := rw_setHeader (λ h, Header_Set h "Content-Type" "application/xml") rw in
        let rw := rw_WriteHeader rw StatusOK in
        let rw := rw_Write rw xmlContent in
        {| served_sg := sg; served_rw := rw; served_next := [] |}
    end
  else if String.eqb path (robotsPath sg) then
    let robotsContent := buildRobotsTxt sg req in
    let rw := rw_setHeader (λ h, Header_Set h "Content-Type" "text/plain") rw in
    let rw := rw_WriteHeader rw StatusOK in
    let rw := rw_Write rw robotsContent in
    {| served_sg := sg; served_rw := rw; served_next := [] |}
  else
    let ignored := existsb (λ re, regexp_MatchString re path) (ignores sg) in
    let scheme := requestScheme req in
    let host := Host req in
    let fullURL := scheme +:+ "://" +:+ host +:+ Strings.TrimSuffix path "/" in
    let sw := {| sw_ResponseWriter := rw; sw_status := 0 |} in
    let sw := Handler_ServeHTTP_sw (next sg) sw req in
    let status := if sw_status sw =? 0 then StatusOK else sw_status sw in
    {| served_sg := if negb ignored && (status =? StatusOK) then record fullURL sg else sg;
       served_rw := sw_ResponseWriter sw;
       served_next := [req] |}.

End streaming.
End Streaming.

(** ** Package traefik_sitemap_generator (src/unnamed/part_000)

    The first version of the middleware: it records a path before it
    forwards the request, knows no robots file and no built-in patterns,
    and filters the sitemap by the prefix [base/].  [New] also starts the
    periodic writer of the output file, a goroutine that has no
    counterpart here; [generateSitemap] writes files and is left out. *)

Module Generator.

Record Config := {
  OutputFile : string;
  SitemapPath : string;
  Ignore : list string;
}.

Definition CreateConfig : Config :=
  {| OutputFile := EmptyString; SitemapPath := "/sitemap.xml"; Ignore := [] |}.

Section generator.
Context `{L : GoLib}.

Record sitemapGenerator := {
  next : Handler;
  name : string;
  outputFile : string;
  sitemapPath : string;
  ignores : list Regexp;
  paths : gset string;
}.

Definition New (next : Handler) (config : Config) (name : string) : sitemapGenerator + string :=
  if String.eqb (OutputFile config) EmptyString then inr "outputFile is required"
  else
    let SitemapPath' :=
      if String.eqb (SitemapPath config) EmptyString then "/sitemap.xml" else SitemapPath config in
    match compileUser (Ignore config) [] with
    | inr err => inr err
    | inl ignores =>
        inl {| next := next;
               name := name;
               outputFile := OutputFile config;
               sitemapPath := SitemapPath';
               ignores := ignores;
               paths := ∅ |}
    end.

Record URL := { Loc : string }.

Record URLSet := {
  Xmlns : string;
  URLs : list URL;
}.

(** [filteredPaths] of [buildSitemapXML]; [paths] is the registry in the
    order the map iteration delivered it, which is the order of the
    document: this version does not sort. *)
Definition filterPaths (req : option Request) (paths : list string) : list string :=
  match req with
  | Some req =>
      let base := requestScheme req +:+ "://" +:+ Host req +:+ "/" in
      List.filter (λ p, Strings.HasPrefix p base) paths
  | None => paths
  end.

Definition buildURLSet (paths : list string) (req : option Request) : URLSet :=
  {| Xmlns := "http://www.sitemaps.org/schemas/sitemap/0.9";
     URLs := (λ p, {| Loc := p |}) <$> filterPaths req paths |}.

Definition marshalURL (u : URL) : string :=
  newline +:+ "  <url>" +:+
  newline +:+ "    <loc>" +:+ xml_EscapeText (Loc u) +:+ "</loc>" +:+
  newline +:+ "  </url>".

Definition xml_MarshalIndent (v : URLSet) : option string :=
  Some ("<urlset xmlns=" +:+ dquote +:+ xml_EscapeText (Xmlns v) +:+ dquote +:+ ">" +:+
        String.concat EmptyString (marshalURL <$> URLs v) +:+
        (match URLs v with [] => EmptyString | _ => newline end) +:+
        "</urlset>").

Definition buildSitemapXML (paths : list string) (req : option Request) : option string :=
  match xml_MarshalIndent (buildURLSet paths req) with
  | None => None
  | Some output => Some (xml_Header +:+ output)
  end.

Record served := {
  served_sg : sitemapGenerator;
  served_rw : ResponseWriter;
  served_next : list Request;
}.

Definition record (fullURL : string) (sg : sitemapGenerator) : sitemapGenerator :=
  {| next := next sg; name := name sg; outputFile := outputFile sg;
     sitemapPath := sitemapPath sg; ignores := ignores sg;
     paths := {[fullURL]} ∪ paths sg |}.

(** [order] is the registry as the map iteration of this call delivers
    it. *)
Definition ServeHTTP (sg : sitemapGenerator) (rw : ResponseWriter) (req : Request)
    (order : list string) : served :=
  let path := URL_Path req in
  if String.eqb path (sitemapPath sg) then
    match buildSitemapXML order (Some req) with
    | None =>
        {| served_sg := sg;
           served_rw := http_Error rw "Internal Server Error" StatusInternalServerError;
           served_next := [] |}
    | Some xmlContent =>
        let rw := rw_setHeader (λ h, Header_Set h "Content-Type" "application/xml") rw in
        let rw := rw_WriteHeader rw StatusOK in
        let rw := rw_Write rw xmlContent in
        {| served_sg := sg; served_rw := rw; served_next := [] |}
    end
  else
    let ignored := existsb (λ re, regexp_MatchString re path) (ignores sg) in
    let sg :=
      if negb ignored then
        let scheme := requestScheme req in
        let host := Host req in
        let fullURL := scheme +:+ "://" +:+ host +:+ Strings.TrimSuffix path "/" in
        record fullURL sg
      else sg in
    {| served_sg := sg;
       served_rw := Handler_ServeHTTP_rw (next sg) rw req;
       served_next := [req] |}.

End generator.
End Generator.

(** ** More examples *)

Module Demo2.
Import Ref.

(** A page that declares its length. *)
Definition sizedHandler : Handler :=
  λ _, [HHeaderPut "Content-Type" ["text/html"];
        HHeaderPut "Content-Length" ["41"];
        HWriteHeader 200;
        HWrite Demo.page].

Definition notFoundHandler : Handler :=
  λ _, [HHeaderPut "Content-Type" ["text/plain"]; HWriteHeader 404; HWrite "not found"].

Definition analytics : sitemapGenerator := Demo.generator sizedHandler Demo.withGTM.

Definition broken : sitemapGenerator := Demo.generator Demo.brokenGzipHandler Demo.withGTM.

Definition afterProductsTwice : served :=
  returned (ServeHTTP (served_sg Demo.afterProducts) Demo.client (Demo.get "/products")
              Demo.instant) Demo.shop.

(** A page asked for with a trailing slash. *)
Definition afterBlog : served :=
  returned (ServeHTTP Demo.shop Demo.client (Demo.get "/blog/") Demo.instant) Demo.shop.

(** A registry with pages of two hosts. *)
Definition twoHosts : sitemapGenerator :=
  {| next := Demo.htmlHandler; name := "seo"; sitemapPath := "/sitemap.xml";
     robotsPath := "/robots.txt"; ignores := [];
     paths := {[ "https://example.com/b"; "https://example.com/a"; "https://other.org/c" ]};
     gtmID := EmptyString |}.

(** The page of the shop after the rewrite. *)
Definition rewritten : string :=
  match insertNoscript "GTM-0000000" (insertScript "GTM-0000000" Demo.page) with
  | Return final => final
  | Panic => EmptyString
  end.

Definition afterAnalytics : served :=
  returned (ServeHTTP analytics Demo.client (Demo.get "/products") Demo.instant) analytics.

(** The compiled body-tag pattern. *)
Definition bodyTag : rx :=
  match Compile bodyTagPattern with
  | inl r => r
  | inr _ => EndText
  end.

Definition isHandler (r : result (sitemapGenerator + string)) : bool :=
  match r with
  | Return (inl _) => true
  | _ => false
  end.

(** A configuration that leaves the sitemap path to the default. *)
Definition partial : Config :=
  {| SitemapPath := EmptyString; RobotsPath := "/bots.txt"; Ignore := [];
     GTMID := "GTM-0000000" |}.

(** A user pattern that does not compile, and another one after it. *)
Definition badPatterns : Config :=
  {| SitemapPath := EmptyString; RobotsPath := EmptyString;
     Ignore := ["^/admin/.*"; "("; "["]; GTMID := EmptyString |}.

Definition first : Generator.sitemapGenerator :=
  {| Generator.next := notFoundHandler; Generator.name := "sitemap";
     Generator.outputFile := "/tmp/sitemap.xml"; Generator.sitemapPath := "/sitemap.xml";
     Generator.ignores := []; Generator.paths := ∅ |}.
End Demo2.

(** * Facts about the string functions *)

Module StringsFacts.
Import Strings.

Lemma app_nil_l (s : string) : EmptyString +:+ s = s.
Proof. reflexivity. Qed.

Lemma app_cons (c : ascii) (s t : string) : String c s +:+ t = String c (s +:+ t).
Proof. reflexivity. Qed.

Lemma app_nil_r (s : string) : s +:+ EmptyString = s.
Proof. induction s as [|c s IH]; [done|]. by rewrite app_cons, IH. Qed.

Lemma app_assoc (s t u : string) : (s +:+ t) +:+ u = s +:+ t +:+ u.
Proof. induction s as [|c s IH]; [done|]. by rewrite !app_cons, IH. Qed.

Lemma length_app (s t : string) :
  String.length (s +:+ t) = (String.length s + String.length t)%nat.
Proof. induction s as [|c s IH]; [done|]. rewrite app_cons. simpl. by rewrite IH. Qed.

Lemma take_drop (n : nat) (s : string) : take n s +:+ drop n s = s.
Proof.
  revert s. induction n as [|n IH]; intros [|c s]; try done.
  simpl. by rewrite app_cons, IH.
Qed.

Lemma take_app_length (p t : string) : take (String.length p) (p +:+ t) = p.
Proof. induction p as [|c p IH]; [by destruct t|]. rewrite app_cons. simpl. by rewrite IH. Qed.

Lemma drop_app_length (p t : string) : drop (String.length p) (p +:+ t) = t.
Proof. induction p as [|c p IH]; [by destruct t|]. by rewrite app_cons. Qed.

Lemma drop_drop (n m : nat) (s : string) : drop n (drop m s) = drop (m + n) s.
Proof.
  revert s. induction m as [|m IH]; intros s; [done|].
  destruct s as [|c s]; [by destruct n|]. simpl. apply IH.
Qed.

Lemma drop_nil (n : nat) : drop n EmptyString = EmptyString.
Proof. by destruct n. Qed.

Lemma ascii_eqb_true (a b : ascii) : Ascii.eqb a b = true ↔ a = b.
Proof. apply Ascii.eqb_eq. Qed.

(** [HasPrefix] says that the string starts with the prefix. *)
Lemma HasPrefix_spec (s p : string) : HasPrefix s p = true ↔ ∃ r, s = p +:+ r.
Proof.
  revert s. induction p as [|a p IH]; intros s.
  - split; [intros _; by exists s|intros _; by destruct s].
  - destruct s as [|c s]; simpl.
    + split; [done|]. intros [r Hr]. by rewrite app_cons in Hr.
    + rewrite andb_true_iff, ascii_eqb_true, IH. split.
      * intros [-> [r ->]]. by exists r.
      * intros [r Hr]. rewrite app_cons in Hr. injection Hr as -> ->. eauto.
Qed.

Lemma HasPrefix_drop (s p : string) :
  HasPrefix s p = true → p +:+ drop (String.length p) s = s.
Proof. intros [r ->]%HasPrefix_spec. by rewrite drop_app_length. Qed.

Lemma Index_unfold (s substr : string) :
  Index s substr =
    if HasPrefix s substr then Some 0%nat
    else match s with
         | EmptyString => None
         | String _ s' => S <$> Index s' substr
         end.
Proof. by destruct s. Qed.

Lemma Index_Some (s substr : string) (j : nat) :
  Index s substr = Some j →
  HasPrefix (drop j s) substr = true
  ∧ (j ≤ String.length s)%nat
  ∧ ∀ i, (i < j)%nat → HasPrefix (drop i s) substr = false.
Proof.
  revert j. induction s as [|c s IH]; intros j; rewrite Index_unfold.
  - destruct (HasPrefix EmptyString substr) eqn:E; [|done].
    intros [= <-]. split_and!; [done|done|lia].
  - destruct (HasPrefix (String c s) substr) eqn:E.
    + intros [= <-]. split_and!; [done|cbn; lia|lia].
    + destruct (Index s substr) as [j'|]; [|done].
      intros [= <-]. destruct (IH j' eq_refl) as (H1 & H2 & H3).
      split_and!; [done|cbn; lia|].
      intros [|i] Hi; [done|]. cbn [drop]. apply H3. lia.
Qed.

Lemma Index_None (s substr : string) :
  Index s substr = None → ∀ i, HasPrefix (drop i s) substr = false.
Proof.
  induction s as [|c s IH]; rewrite Index_unfold.
  - destruct (HasPrefix EmptyString substr) eqn:E; [done|].
    intros _ i. by rewrite drop_nil.
  - destruct (HasPrefix (String c s) substr) eqn:E; [done|].
    destruct (Index s substr) as [j'|]; [done|].
    intros _ [|i]; [done|]. cbn [drop]. by apply IH.
Qed.

(** One replacement: the new text takes the place of the first instance
    of the old one, and nothing else changes. *)
Lemma replaceN_1 (s old new : string) :
  replaceN s old new 1 =
    match Index s old with
    | Some j => take j s +:+ new +:+ drop (j + String.length old) s
    | None => s
    end.
Proof. done. Qed.

End StringsFacts.

(** * Facts about suffixes *)

Module SuffixFacts.
Import Strings StringsFacts.

Lemma HasSuffix_spec (s t : string) : HasSuffix s t = true ↔ ∃ p, s = p +:+ t.
Proof.
  unfold HasSuffix. rewrite andb_true_iff, Nat.leb_le, String.eqb_eq. split.
  - intros [Hlen Hdrop]. exists (take (String.length s - String.length t) s).
    pose proof (take_drop (String.length s - String.length t) s) as H.
    by rewrite Hdrop in H.
  - intros [p ->]. rewrite length_app. split; [lia|].
    replace (String.length p + String.length t - String.length t)%nat
      with (String.length p) by lia.
    apply drop_app_length.
Qed.

(** [TrimSuffix] removes one instance of the suffix, not more. *)
Lemma TrimSuffix_app (p t : string) : TrimSuffix (p +:+ t) t = p.
Proof.
  unfold TrimSuffix.
  assert (HasSuffix (p +:+ t) t = true) as -> by (apply HasSuffix_spec; eauto).
  rewrite length_app.
  replace (String.length p + String.length t - String.length t)%nat
    with (String.length p) by lia.
  apply take_app_length.
Qed.

Lemma TrimSuffix_none (s t : string) : HasSuffix s t = false → TrimSuffix s t = s.
Proof. unfold TrimSuffix. by intros ->. Qed.

Lemma snoc_inj (p q : string) (c d : ascii) :
  p +:+ String c EmptyString = q +:+ String d EmptyString → p = q ∧ c = d.
Proof.
  revert q. induction p as [|a p IH]; intros [|b q]; rewrite ?app_cons, ?app_nil_l.
  - by intros [= ->].
  - intros [= -> H]. by destruct q.
  - intros [= -> H]. by destruct p.
  - intros [= -> H]. apply IH in H as [-> ->]. done.
Qed.

Lemma snoc_cases (s : string) :
  s = EmptyString ∨ ∃ p c, s = p +:+ String c EmptyString.
Proof.
  induction s as [|a s [->|(p & c & ->)]]; [by left|right..].
  - by exists EmptyString, a.
  - by exists (String a p), c.
Qed.

(** A one-byte suffix of a concatenation is decided by its last
    non-empty part. *)
Lemma HasSuffix_app_byte (a b : string) (c : ascii) :
  b ≠ EmptyString →
  HasSuffix (a +:+ b) (String c EmptyString) = HasSuffix b (String c EmptyString).
Proof.
  intros Hb. destruct (snoc_cases b) as [->|(p & d & ->)]; [done|].
  apply eq_true_iff_eq. rewrite !HasSuffix_spec. split.
  - intros [q Hq]. rewrite <- app_assoc in Hq. apply snoc_inj in Hq as [_ ->]. eauto.
  - intros [q Hq]. apply snoc_inj in Hq as [_ ->]. exists (a +:+ p).
    by rewrite app_assoc.
Qed.

Lemma TrimSuffix_slash_end (path : string) :
  HasSuffix path "//" = false → HasSuffix (TrimSuffix path "/") "/" = false.
Proof.
  intros H. destruct (HasSuffix path "/") eqn:E.
  - apply HasSuffix_spec in E as [p ->]. rewrite TrimSuffix_app.
    destruct (HasSuffix p "/") eqn:E'; [|done].
    apply HasSuffix_spec in E' as [q ->].
    assert (HasSuffix ((q +:+ "/") +:+ "/") "//" = true); [|congruence].
    apply HasSuffix_spec. exists q. by rewrite app_assoc.
  - by rewrite TrimSuffix_none.
Qed.

(** When the canonical URL ends in a slash. *)
Lemma canonical_no_slash (scheme host path : string) :
  HasSuffix path "//" = false →
  host ≠ EmptyString →
  HasSuffix host "/" = false →
  HasSuffix (scheme +:+ "://" +:+ host +:+ TrimSuffix path "/") "/" = false.
Proof.
  intros Hp Hne Hh.
  destruct (decide (TrimSuffix path "/" = EmptyString)) as [->|Ht].
  - rewrite app_nil_r, <- app_assoc. by rewrite HasSuffix_app_byte.
  - rewrite <- !app_assoc. rewrite HasSuffix_app_byte by done.
    by apply TrimSuffix_slash_end.
Qed.

(** Two slashes at the end of the path leave one at the end of the URL. *)
Lemma canonical_slash (scheme host path : string) :
  HasSuffix path "//" = true →
  HasSuffix (scheme +:+ "://" +:+ host +:+ TrimSuffix path "/") "/" = true.
Proof.
  intros [q ->]%HasSuffix_spec.
  change (q +:+ "//") with (q +:+ "/" +:+ "/").
  rewrite <- (app_assoc q "/" "/"), TrimSuffix_app.
  apply HasSuffix_spec. exists (scheme +:+ "://" +:+ host +:+ q).
  by rewrite !app_assoc.
Qed.

End SuffixFacts.

(** * Facts about the capturing writer *)

Section capture.

Lemma fold_handle_body (calls : list handlerCall) (w : modifyingWriter) :
  mw_body (fold_left handle calls w) = mw_body w +:+ written calls.
Proof.
  revert w. induction calls as [|c calls IH]; intros w; simpl.
  - by rewrite StringsFacts.app_nil_r.
  - rewrite IH. destruct c; simpl; try done.
    by rewrite StringsFacts.app_assoc.
Qed.

Lemma fold_handle_rw_calls (calls : list handlerCall) (w : modifyingWriter) :
  rw_calls (mw_ResponseWriter (fold_left handle calls w)) = rw_calls (mw_ResponseWriter w).
Proof.
  revert w. induction calls as [|c calls IH]; intros w; simpl; [done|].
  rewrite IH. by destruct c.
Qed.

(** The header map and the status evolve independently of the rest of
    the writer. *)
Lemma fold_handle_header_eq (calls : list handlerCall) (w w' : modifyingWriter) :
  rw_Header (mw_ResponseWriter w) = rw_Header (mw_ResponseWriter w') →
  rw_Header (mw_ResponseWriter (fold_left handle calls w))
  = rw_Header (mw_ResponseWriter (fold_left handle calls w')).
Proof.
  revert w w'. induction calls as [|c calls IH]; intros w w' H; simpl; [done|].
  apply IH. unfold handle, modifyingWriter_setHeader, rw_setHeader.
  destruct c; cbn [mw_ResponseWriter rw_Header modifyingWriter_Write
                   modifyingWriter_WriteHeader]; by rewrite ?H.
Qed.

Lemma fold_handle_status_eq (calls : list handlerCall) (w w' : modifyingWriter) :
  mw_status w = mw_status w' →
  mw_status (fold_left handle calls w) = mw_status (fold_left handle calls w').
Proof.
  revert w w'. induction calls as [|c calls IH]; intros w w' H; simpl; [done|].
  apply IH. unfold handle, modifyingWriter_setHeader, modifyingWriter_Write,
    modifyingWriter_WriteHeader.
  destruct c; cbn [mw_status]; by rewrite ?H.
Qed.

Lemma defaulted_idemp (status : Z) : defaulted (defaulted status) = defaulted status.
Proof. unfold defaulted, StatusOK. repeat case_match; lia. Qed.

Lemma fold_handle_status (calls : list handlerCall) (w : modifyingWriter) :
  defaulted (mw_status (fold_left handle calls w))
  = match lastWriteHeader calls with
    | Some code => defaulted code
    | None => defaulted (mw_status w)
    end.
Proof.
  revert w. induction calls as [|c calls IH]; intros w; [done|].
  cbn [fold_left lastWriteHeader]. rewrite IH.
  destruct (lastWriteHeader calls) as [code|]; [done|].
  destruct c; try done. cbn. apply defaulted_idemp.
Qed.

Lemma captured (rw : ResponseWriter) (calls : list handlerCall) :
  let mw := fold_left handle calls
              {| mw_ResponseWriter := rw; mw_status := 0; mw_body := EmptyString |} in
  mw_ResponseWriter mw
    = {| rw_Header := headersAfter calls (rw_Header rw); rw_calls := rw_calls rw |}
  ∧ mw_body mw = written calls
  ∧ (if mw_status mw =? 0 then StatusOK else mw_status mw) = observedStatus calls.
Proof.
  intros mw. split_and!.
  - pose proof (fold_handle_rw_calls calls
      {| mw_ResponseWriter := rw; mw_status := 0; mw_body := EmptyString |}) as Hc.
    pose proof (fold_handle_header_eq calls
      {| mw_ResponseWriter := rw; mw_status := 0; mw_body := EmptyString |}
      {| mw_ResponseWriter := {| rw_Header := rw_Header rw; rw_calls := [] |};
         mw_status := 0; mw_body := EmptyString |} eq_refl) as Hh.
    fold mw in Hc, Hh. unfold headersAfter. rewrite <- Hh.
    destruct (mw_ResponseWriter mw); simpl in *. by subst.
  - unfold mw. by rewrite fold_handle_body.
  - unfold observedStatus, mw. f_equal.
    all: by rewrite (fold_handle_status_eq calls _
      {| mw_ResponseWriter := {| rw_Header := ∅; rw_calls := [] |};
         mw_status := 0; mw_body := EmptyString |}).
Qed.

Lemma observedStatus_last (calls : list handlerCall) :
  observedStatus calls
  = match lastWriteHeader calls with
    | Some code => if code =? 0 then StatusOK else code
    | None => StatusOK
    end.
Proof. apply (fold_handle_status calls). Qed.

End capture.

(** * Facts about ServeHTTP *)

Section serve.
Context `{L : GoLib}.

(** The two special paths are tested first. *)
Lemma ServeHTTP_sitemap (sg : sitemapGenerator) rw req now :
  URL_Path req = sitemapPath sg →
  ServeHTTP sg rw req now =
    match buildSitemapXML sg (Some req) now with
    | None =>
        Return {| served_sg := sg;
                  served_rw := http_Error rw "Internal Server Error" StatusInternalServerError;
                  served_next := [] |}
    | Some xmlContent =>
        Return {| served_sg := sg;
                  served_rw :=
                    rw_Write (rw_WriteHeader
                      (rw_setHeader (λ h, Header_Set h "Content-Type" "application/xml") rw)
                      StatusOK) xmlContent;
                  served_next := [] |}
    end.
Proof.
  intros H. unfold ServeHTTP. rewrite H, String.eqb_refl. done.
Qed.

Lemma ServeHTTP_robots (sg : sitemapGenerator) rw req now :
  URL_Path req ≠ sitemapPath sg →
  URL_Path req = robotsPath sg →
  ServeHTTP sg rw req now =
    Return {| served_sg := sg;
              served_rw :=
                rw_Write (rw_WriteHeader
                  (rw_setHeader (λ h, Header_Set h "Content-Type" "text/plain") rw)
                  StatusOK) (buildRobotsTxt sg req);
              served_next := [] |}.
Proof.
  intros H1 H2. unfold ServeHTTP.
  apply String.eqb_neq in H1. rewrite H1, H2, String.eqb_refl. done.
Qed.

(** Every other request is forwarded.  The equation reads the captured
    response through [headersAfter], [written] and [observedStatus]. *)
Lemma ServeHTTP_forward (sg : sitemapGenerator) rw req now :
  URL_Path req ≠ sitemapPath sg →
  URL_Path req ≠ robotsPath sg →
  ServeHTTP sg rw req now =
    let calls := next sg req in
    let h := headersAfter calls (rw_Header rw) in
    let rw1 := {| rw_Header := h; rw_calls := rw_calls rw |} in
    let status := observedStatus calls in
    let through := rw_Write (rw_WriteHeader rw1 status) (written calls) in
    let recorded :=
      if negb (isIgnored sg (URL_Path req)) && (status =? StatusOK)
      then record (fullURL req) sg else sg in
    match gunzipBody (isGzipped h) (written calls) with
    | None => Return {| served_sg := sg; served_rw := through; served_next := [req] |}
    | Some bodyStr =>
        if negb (String.eqb (gtmID sg) EmptyString) && isHTML h && (status =? StatusOK)
        then
          result_bind (insertNoscript (gtmID sg) (insertScript (gtmID sg) bodyStr))
            (λ modified,
              match gzipBody (isGzipped h) modified with
              | None =>
                  Return {| served_sg := sg; served_rw := through; served_next := [req] |}
              | Some bodyBytes =>
                  Return {| served_sg := recorded;
                            served_rw :=
                              rw_Write (rw_WriteHeader
                                (rw_setHeader (λ h, Header_Del h "Content-Length") rw1)
                                status) bodyBytes;
                            served_next := [req] |}
              end)
        else Return {| served_sg := recorded; served_rw := through; served_next := [req] |}
    end.
Proof.
  intros H1 H2. unfold ServeHTTP.
  apply String.eqb_neq in H1. apply String.eqb_neq in H2. rewrite H1, H2.
  unfold Handler_ServeHTTP.
  destruct (captured rw (next sg req)) as (Hrw & Hbody & Hstatus).
  cbv zeta in Hrw, Hbody, Hstatus. cbv zeta.
  rewrite Hrw, Hbody, Hstatus. reflexivity.
Qed.

(** The script goes in front of the first [</head>]; the text before
    and the text from there on are copied. *)
Lemma insertScript_spec (gtmID bodyStr : string) :
  insertScript gtmID bodyStr =
    match Strings.Index bodyStr "</head>" with
    | Some j => Strings.take j bodyStr +:+ gtmScriptTemplate gtmID +:+ Strings.drop j bodyStr
    | None => bodyStr
    end.
Proof.
  unfold insertScript, Strings.Replace. cbv zeta.
  assert (String.eqb "</head>" (gtmScriptTemplate gtmID +:+ "</head>") = false) as ->
    by reflexivity.
  rewrite StringsFacts.replaceN_1. destruct (Strings.Index bodyStr "</head>") as [j|] eqn:E; [|done].
  apply StringsFacts.Index_Some in E as (Hpre & _ & _).
  apply StringsFacts.HasPrefix_drop in Hpre. rewrite StringsFacts.drop_drop in Hpre.
  rewrite <- Hpre. by rewrite StringsFacts.app_assoc.
Qed.

End serve.

(** * The claims *)

(** C10 (amended).  The status of the decision and of the recording is
    the argument of the last [WriteHeader] call of the downstream handler,
    whatever was written before or after it, unless that argument is 0,
    the value that marks an unset status: then, as when [WriteHeader] is
    never called, the status is 200. *)
Theorem status_is_last_WriteHeader (h : Handler) (rw : ResponseWriter) (req : Request) :
  let mw := Handler_ServeHTTP h
              {| mw_ResponseWriter := rw; mw_status := 0; mw_body := EmptyString |} req in
  (if mw_status mw =? 0 then StatusOK else mw_status mw)
  = match lastWriteHeader (h req) with
    | Some code => if code =? 0 then StatusOK else code
    | None => StatusOK
    end.
Proof.
  intros mw. unfold mw, Handler_ServeHTTP.
  destruct (captured rw (h req)) as (_ & _ & ->).
  apply observedStatus_last.
Qed.

(** C10 as stated fails: after the single call [WriteHeader(0)] the last
    argument is 0 and the status is 200. *)
Lemma status_not_last_WriteHeader_zero :
  lastWriteHeader [HWriteHeader 0] = Some 0
  ∧ observedStatus [HWriteHeader 0] = 200
  ∧ mw_status (modifyingWriter_WriteHeader
       {| mw_ResponseWriter := Demo.client; mw_status := 404; mw_body := EmptyString |} 0) = 0.
Proof. by split_and!. Qed.

(** C7.  The robots file is the line [User-agent: *] and the line
    [Sitemap: <scheme>://<host><sitemapPath>], each ended by a newline;
    for https, example.com and /sitemap.xml it is the text of the
    specification. *)
Theorem robots_two_lines :
  (∀ (L : GoLib) (sg : sitemapGenerator) (req : Request),
     buildRobotsTxt sg req
     = ("User-agent: *" +:+ newline)
       +:+ (("Sitemap: " +:+ requestScheme req +:+ "://" +:+ Host req +:+ sitemapPath sg)
            +:+ newline))
  ∧ buildRobotsTxt (Demo.generator Demo.htmlHandler CreateConfig)
      {| URL_Path := "/robots.txt"; URL_Scheme := "https"; Host := "example.com";
         req_Header := ∅ |}
    = "User-agent: *" +:+ newline +:+ "Sitemap: https://example.com/sitemap.xml" +:+ newline.
Proof.
  split.
  - intros L sg req. unfold buildRobotsTxt. cbv zeta.
    by rewrite !StringsFacts.app_assoc.
  - by vm_compute.
Qed.

Section claims.
Context `{L : GoLib}.

(** C9.  A request for the sitemap path or the robots path is answered
    by the middleware: the downstream handler is not called, whatever it
    is, and the generator, with its registry, is unchanged. *)
Theorem special_paths_answered_locally (sg : sitemapGenerator) rw req now :
  URL_Path req = sitemapPath sg ∨ URL_Path req = robotsPath sg →
  ∃ sv, ServeHTTP sg rw req now = Return sv
        ∧ served_next sv = []
        ∧ served_sg sv = sg
        ∧ paths (served_sg sv) = paths sg
        ∧ ∀ h, ServeHTTP (with_next h sg) rw req now
               = Return {| served_sg := with_next h sg;
                           served_rw := served_rw sv;
                           served_next := [] |}.
Proof.
  intros H.
  destruct (decide (URL_Path req = sitemapPath sg)) as [Hs|Hs].
  - rewrite ServeHTTP_sitemap by done.
    destruct (buildSitemapXML sg (Some req) now) as [xmlContent|] eqn:E.
    + eexists. split_and!; try done.
      intros h. rewrite ServeHTTP_sitemap by done.
      change (buildSitemapXML (with_next h sg)) with (buildSitemapXML sg).
      by rewrite E.
    + discriminate E.
  - destruct H as [H|H]; [done|].
    rewrite ServeHTTP_robots by done.
    eexists. split_and!; try done.
    intros h. by rewrite ServeHTTP_robots.
Qed.

(** C2.  A forwarded request whose response is not rewritten (no
    analytics ID, or a content type that is not text/html, or a status
    other than 200) gives the client the status, then the bytes the
    handler wrote, unchanged, gzip-encoded or not. *)
Theorem passthrough_is_byte_identical (sg : sitemapGenerator) rw req now :
  URL_Path req ≠ sitemapPath sg →
  URL_Path req ≠ robotsPath sg →
  let calls := next sg req in
  let h := headersAfter calls (rw_Header rw) in
  gtmID sg = EmptyString ∨ isHTML h = false ∨ observedStatus calls ≠ StatusOK →
  ∃ sv, ServeHTTP sg rw req now = Return sv
        ∧ served_next sv = [req]
        ∧ rw_Header (served_rw sv) = h
        ∧ rw_calls (served_rw sv)
          = rw_calls rw ++ [CallWriteHeader (observedStatus calls); CallWrite (written calls)].
Proof.
  intros H1 H2 calls h Hpass.
  rewrite ServeHTTP_forward by done. cbv zeta. fold calls. fold h.
  assert (negb (String.eqb (gtmID sg) EmptyString) && isHTML h
          && (observedStatus calls =? StatusOK) = false) as ->.
  { destruct Hpass as [-> | [-> | Hne]].
    - done.
    - by rewrite andb_false_r.
    - apply Z.eqb_neq in Hne. rewrite Hne. by rewrite andb_false_r. }
  destruct (gunzipBody (isGzipped h) (written calls)); eexists; split_and!; try done.
  all: cbn; by rewrite <- app_assoc.
Qed.

End claims.

(** C9 at work: the robots path, a handler that would answer HTML. *)
Lemma special_paths_witness :
  ∃ sv, ServeHTTP (Demo.generator Demo.htmlHandler CreateConfig)
          Demo.client (Demo.get "/robots.txt") Demo.instant = Return sv
        ∧ served_next sv = []
        ∧ served_sg sv = Demo.generator Demo.htmlHandler CreateConfig
        ∧ paths (served_sg sv) = paths (Demo.generator Demo.htmlHandler CreateConfig)
        ∧ ∀ h, ServeHTTP (with_next h (Demo.generator Demo.htmlHandler CreateConfig))
                 Demo.client (Demo.get "/robots.txt") Demo.instant
               = Return {| served_sg :=
                             with_next h (Demo.generator Demo.htmlHandler CreateConfig);
                           served_rw := served_rw sv;
                           served_next := [] |}.
Proof.
  apply (special_paths_answered_locally
           (Demo.generator Demo.htmlHandler CreateConfig)).
  right. vm_compute. reflexivity.
Defined.

(** C2 at work: a JSON response with status 201, analytics configured. *)
Lemma passthrough_witness :
  ∃ sv, ServeHTTP (Demo.generator Demo.jsonHandler Demo.withGTM)
          Demo.client (Demo.get "/api/items") Demo.instant = Return sv
        ∧ served_next sv = [Demo.get "/api/items"]
        ∧ rw_Header (served_rw sv) = {[ "Content-Type" := ["application/json"] ]}
        ∧ rw_calls (served_rw sv) = [CallWriteHeader 201; CallWrite "{}"].
Proof.
  apply (passthrough_is_byte_identical
           (Demo.generator Demo.jsonHandler Demo.withGTM)
           Demo.client (Demo.get "/api/items") Demo.instant).
  - vm_compute. discriminate.
  - vm_compute. discriminate.
  - right. left. vm_compute. reflexivity.
Defined.

(** * Facts about New *)

Section construction.
Context `{L : GoLib}.

Lemma compileUser_ok (patterns : list string) (res acc : list Regexp) :
  Forall2 (λ p re, regexp_Compile p = inl re) patterns res →
  compileUser patterns acc = inl (acc ++ res).
Proof.
  intros H. revert acc. induction H as [|p re ps res Hp _ IH]; intros acc; simpl.
  - by rewrite app_nil_r.
  - rewrite Hp, IH. by rewrite <- app_assoc.
Qed.

Lemma compileUser_error (patterns : list string) (acc : list Regexp) :
  Exists (λ p, ∃ err, regexp_Compile p = inr err) patterns →
  ∃ msg, compileUser patterns acc = inr msg.
Proof.
  revert acc. induction patterns as [|p ps IH]; intros acc H; [by inversion H|].
  simpl. destruct (regexp_Compile p) as [re|err] eqn:E; [|by eexists].
  apply IH. inversion H as [?? [err Herr]|]; [congruence|done].
Qed.

Lemma compileDefaults_ok (patterns : list string) (res acc : list Regexp) :
  Forall2 (λ p re, regexp_Compile p = inl re) patterns res →
  compileDefaults patterns acc = Return (acc ++ res).
Proof.
  intros H. revert acc. induction H as [|p re ps res Hp _ IH]; intros acc; simpl.
  - by rewrite app_nil_r.
  - unfold regexp_MustCompile. rewrite Hp. simpl. rewrite IH. by rewrite <- app_assoc.
Qed.

Lemma compiled_exist (patterns : list string) :
  Forall (λ p, ∃ re, regexp_Compile p = inl re) patterns →
  ∃ res, Forall2 (λ p re, regexp_Compile p = inl re) patterns res.
Proof.
  induction 1 as [|p ps [re Hre] _ [res IH]]; [by exists []|].
  exists (re :: res). by constructor.
Qed.

(** C8.  [New] ends with an error, and hands out no handler, as soon as
    one user pattern does not compile; when all compile, and the
    built-in patterns do (they are literals of the program, and valid),
    it hands out a generator whose matchers are the compiled user
    patterns followed by the compiled built-in ones, in order, and whose
    registry is empty. *)
Theorem New_compiles_user_then_defaults (h : Handler) (config : Config) (name : string) :
  (Exists (λ p, ∃ err, regexp_Compile p = inr err) (Ignore config) →
   ∃ msg, New h config name = Return (inr msg))
  ∧ (Forall (λ p, ∃ re, regexp_Compile p = inl re) (Ignore config) →
     Forall (λ p, ∃ re, regexp_Compile p = inl re) defaultPatterns →
     ∃ sg, New h config name = Return (inl sg)
           ∧ Forall2 (λ p re, regexp_Compile p = inl re)
               (Ignore config ++ defaultPatterns) (ignores sg)
           ∧ paths sg = ∅).
Proof.
  split.
  - intros H. unfold New.
    destruct (compileUser_error (Ignore config) [] H) as [msg ->]. by exists msg.
  - intros [ru Hu]%compiled_exist [rd Hd]%compiled_exist. unfold New.
    rewrite (compileUser_ok _ ru) by done.
    rewrite (compileDefaults_ok _ rd) by done. simpl.
    eexists. split_and!; [done| |done]. simpl. by apply Forall2_app.
Qed.

End construction.

(** C8 at work: an unbalanced parenthesis among the user patterns; the
    patterns of the README. *)
Lemma New_witness :
  (∃ msg, New (L := Ref.lib) Demo.htmlHandler
            {| SitemapPath := EmptyString; RobotsPath := EmptyString;
               Ignore := ["^/admin/.*"; "("]; GTMID := EmptyString |} "seo"
          = Return (inr msg))
  ∧ (∃ sg, New (L := Ref.lib) Demo.htmlHandler
             {| SitemapPath := EmptyString; RobotsPath := EmptyString;
                Ignore := ["^/admin/.*"; ".*\.log$"]; GTMID := EmptyString |} "seo"
           = Return (inl sg)
           ∧ Forall2 (λ p re, @regexp_Compile Ref.lib p = inl re)
               (["^/admin/.*"; ".*\.log$"] ++ defaultPatterns) (ignores sg)
           ∧ paths sg = ∅).
Proof.
  split.
  - apply (New_compiles_user_then_defaults (L := Ref.lib) Demo.htmlHandler
             {| SitemapPath := EmptyString; RobotsPath := EmptyString;
                Ignore := ["^/admin/.*"; "("]; GTMID := EmptyString |} "seo").
    apply Exists_cons_tl, Exists_cons_hd. eexists. vm_compute. reflexivity.
  - apply (New_compiles_user_then_defaults (L := Ref.lib) Demo.htmlHandler
             {| SitemapPath := EmptyString; RobotsPath := EmptyString;
                Ignore := ["^/admin/.*"; ".*\.log$"]; GTMID := EmptyString |} "seo").
    + repeat constructor; eexists; vm_compute; reflexivity.
    + repeat constructor; eexists; vm_compute; reflexivity.
Defined.

(** * Facts about the sitemap builder *)

Section sitemap.
Context `{L : GoLib}.

Lemma fold_filterStep (base : string) (infos acc : list pathInfo) (hasRoot : bool) :
  fold_left (filterStep base) infos (acc, hasRoot)
  = (acc ++ filter (λ info, keeps base (loc info) = true) infos,
     hasRoot || existsb (λ info, isRoot base (loc info)) infos).
Proof.
  revert acc hasRoot. induction infos as [|info infos IH]; intros acc hasRoot.
  - simpl. by rewrite app_nil_r, orb_false_r.
  - cbn [fold_left existsb]. unfold filterStep at 2. fold (keeps base (loc info)).
    fold (isRoot base (loc info)). rewrite filter_cons.
    destruct (keeps base (loc info)) eqn:Ek.
    + rewrite IH, decide_True by done. rewrite <- app_assoc. simpl.
      f_equal. by destruct (isRoot base (loc info)), hasRoot.
    + rewrite IH, decide_False by done. f_equal.
      assert (isRoot base (loc info) = false) as ->; [|done].
      unfold keeps in Ek. apply orb_false_iff in Ek as [_ Ek]. done.
Qed.

Lemma filterInfos_request (req : Request) (infos : list pathInfo) :
  let base := requestScheme req +:+ "://" +:+ Host req in
  filterInfos (Some req) infos
  = (filter (λ info, keeps base (loc info) = true) infos
       ++ (if existsb (λ info, isRoot base (loc info)) infos
           then [] else [{| loc := base |}]),
     base).
Proof.
  intros base. unfold filterInfos. fold base. rewrite fold_filterStep. simpl.
  destruct (existsb _ infos); [by rewrite app_nil_r|done].
Qed.

#[local] Instance pathInfo_le_trans : Transitive pathInfo_le.
Proof. intros a b c. unfold pathInfo_le. apply transitivity. Qed.

#[local] Instance pathInfo_le_antisymm : AntiSymm (=) pathInfo_le.
Proof.
  intros [a] [b]. unfold pathInfo_le. simpl. intros H1 H2.
  f_equal. by apply (anti_symm String.le).
Qed.

#[local] Instance pathInfo_le_total : Total pathInfo_le.
Proof. intros a b. unfold pathInfo_le. apply total, _. Qed.

Lemma sort_Slice_Permutation (infos : list pathInfo) : sort_Slice infos ≡ₚ infos.
Proof. apply merge_sort_Permutation. Qed.

(** The sorted slice does not depend on the order it was in. *)
Lemma sort_Slice_order (infos infos' : list pathInfo) :
  infos ≡ₚ infos' → sort_Slice infos = sort_Slice infos'.
Proof.
  intros H. apply (Sorted_unique pathInfo_le).
  - apply Sorted_merge_sort, _.
  - apply Sorted_merge_sort, _.
  - by rewrite !sort_Slice_Permutation.
Qed.

Lemma existsb_Permutation {A} (f : A → bool) (l l' : list A) :
  l ≡ₚ l' → existsb f l = existsb f l'.
Proof.
  intros H. apply eq_true_iff_eq. rewrite !existsb_exists.
  split; intros (x & Hx & Hf); exists x; split; try done.
  - by rewrite <- H.
  - by rewrite H.
Qed.

(** The order in which the map iteration delivers the registry does not
    show in the sitemap. *)
Lemma buildURLSet_order (infos infos' : list pathInfo) (req : option Request) now :
  infos ≡ₚ infos' → buildURLSet infos req now = buildURLSet infos' req now.
Proof.
  intros H. unfold buildURLSet. destruct req as [req|].
  - rewrite !filterInfos_request. cbv zeta.
    rewrite (existsb_Permutation _ infos infos') by done.
    f_equal. f_equal. apply sort_Slice_order. by rewrite H.
  - simpl. f_equal. f_equal. by apply sort_Slice_order.
Qed.

Lemma base_nonempty (scheme host : string) :
  String.eqb (scheme +:+ "://" +:+ host) EmptyString = false.
Proof. by destruct scheme. Qed.

Lemma loc_filter (base : string) (l : list string) :
  loc <$> filter (λ info, keeps base (loc info) = true) ((λ p, {| loc := p |}) <$> l)
  = filter (λ u, keeps base u = true) l.
Proof.
  induction l as [|u l IH]; [done|].
  rewrite fmap_cons, !filter_cons. cbn [loc].
  destruct (decide (keeps base u = true)); [rewrite fmap_cons|]; by rewrite IH.
Qed.

Lemma snapshot_filter (sg : sitemapGenerator) (base : string) :
  loc <$> filter (λ info, keeps base (loc info) = true) (snapshot sg)
  = filter (λ u, keeps base u = true) (elements (paths sg)).
Proof. apply loc_filter. Qed.

Lemma snapshot_root (sg : sitemapGenerator) (base : string) :
  existsb (λ info, isRoot base (loc info)) (snapshot sg) = true ↔ base ∈ paths sg.
Proof.
  rewrite existsb_exists. unfold snapshot, isRoot. split.
  - intros (info & Hin & Heq). apply String.eqb_eq in Heq.
    apply list_elem_of_In, list_elem_of_fmap in Hin as (u & -> & Hu).
    simpl in Heq. subst. by apply elem_of_elements.
  - intros H. exists {| loc := base |}. split; [|by apply String.eqb_refl].
    apply list_elem_of_In, list_elem_of_fmap. exists base. split; [done|].
    by apply elem_of_elements.
Qed.

Lemma URLs_locs (infos : list pathInfo) (req : Request) now :
  let base := requestScheme req +:+ "://" +:+ Host req in
  Loc <$> URLs (buildURLSet infos (Some req) now)
  ≡ₚ loc <$> (filter (λ info, keeps base (loc info) = true) infos
                ++ (if existsb (λ info, isRoot base (loc info)) infos
                    then [] else [{| loc := base |}])).
Proof.
  intros base. unfold buildURLSet. rewrite filterInfos_request. fold base. cbn [URLs].
  rewrite <- list_fmap_compose.
  change (Loc ∘ _) with loc.
  by rewrite sort_Slice_Permutation.
Qed.

End sitemap.

Section sitemap_claims.
Context `{L : GoLib}.

(** C3.  With a request, the locations of the sitemap are the URLs of
    the registry that are [base] or start with [base/], together with
    [base] itself; every one of them is [base] or below it, and none
    occurs twice.  The document is the XML header followed by the
    marshalled set. *)
Theorem sitemap_is_host_scoped (sg : sitemapGenerator) (req : Request) (now : string) :
  let base := requestScheme req +:+ "://" +:+ Host req in
  let urlset := buildURLSet (snapshot sg) (Some req) now in
  let locs := Loc <$> URLs urlset in
  (∀ u, u ∈ locs ↔
        (u ∈ paths sg ∧ (u = base ∨ Strings.HasPrefix u (base +:+ "/") = true))
        ∨ u = base)
  ∧ (∀ u, u ∈ locs → u = base ∨ Strings.HasPrefix u (base +:+ "/") = true)
  ∧ NoDup locs
  ∧ ∃ output, xml_MarshalIndent urlset = Some output
              ∧ buildSitemapXML sg (Some req) now = Some (xml_Header +:+ output).
Proof.
  intros base urlset locs.
  assert (Hperm : locs ≡ₚ
    filter (λ u, keeps base u = true) (elements (paths sg))
      ++ (if existsb (λ info, isRoot base (loc info)) (snapshot sg) then [] else [base])).
  { unfold locs, urlset. rewrite URLs_locs. fold base.
    rewrite fmap_app, snapshot_filter. by destruct (existsb _ (snapshot sg)). }
  pose proof (snapshot_root sg base) as Hroot.
  assert (Hkeeps : ∀ u, keeps base u = true
                        ↔ u = base ∨ Strings.HasPrefix u (base +:+ "/") = true).
  { intros u. unfold keeps. rewrite orb_true_iff, String.eqb_eq. tauto. }
  assert (Hmem : ∀ u, u ∈ locs ↔
        (u ∈ paths sg ∧ (u = base ∨ Strings.HasPrefix u (base +:+ "/") = true))
        ∨ u = base).
  { intros u. rewrite Hperm, elem_of_app, list_elem_of_filter, elem_of_elements, Hkeeps.
    destruct (existsb _ (snapshot sg)) eqn:E.
    - rewrite elem_of_nil. split; [tauto|].
      intros [H| ->]; [tauto|]. left. split; [by left|]. by apply Hroot.
    - rewrite list_elem_of_singleton. tauto. }
  split_and!.
  - done.
  - intros u [[_ H]| ->]%Hmem; [done|by left].
  - rewrite Hperm. apply NoDup_app. split_and!.
    + apply NoDup_filter, NoDup_elements.
    + intros u [_ Hu]%list_elem_of_filter Hx. apply elem_of_elements in Hu.
      destruct (existsb _ (snapshot sg)) eqn:E; [by apply elem_of_nil in Hx|].
      apply list_elem_of_singleton in Hx as ->.
      apply Hroot in Hu. congruence.
    + destruct (existsb _ (snapshot sg)); [constructor|apply NoDup_singleton].
  - eexists. split; [done|]. done.
Qed.

(** C5 (amended).  In a sitemap built for a request, the entry whose
    location is [base] has priority 1.0 and every other entry has
    priority 0.8; the priority element holds the shortest decimal of the
    value: [1] for 1.0 and [0.8] for 0.8. *)
Theorem sitemap_priorities (sg : sitemapGenerator) (req : Request) (now : string) :
  let base := requestScheme req +:+ "://" +:+ Host req in
  Forall (λ u,
    if decide (Loc u = base)
    then Priority u = float_1_0 ∧ marshalPriority u = "<priority>1</priority>"
    else Priority u = float_0_8 ∧ marshalPriority u = "<priority>0.8</priority>")
    (URLs (buildURLSet (snapshot sg) (Some req) now)).
Proof.
  intros base. unfold buildURLSet. rewrite filterInfos_request. fold base. cbn [URLs].
  apply Forall_fmap, Forall_forall. intros info _.
  unfold compose, marshalPriority, priorityOf. cbn [Loc Priority].
  assert (String.eqb base EmptyString = false) as -> by apply base_nonempty.
  cbn [negb andb].
  destruct (decide (loc info = base)) as [Heq|Hne].
  - rewrite Heq, String.eqb_refl. by vm_compute.
  - apply String.eqb_neq in Hne. rewrite Hne. by vm_compute.
Qed.

End sitemap_claims.

(** C5 as stated fails: the entry of [base] prints its priority as [1],
    not as [1.0]. *)
Lemma root_priority_text_is_1 :
  ∃ u, u ∈ URLs (buildURLSet
                   (snapshot (Demo.generator Demo.htmlHandler CreateConfig))
                   (Some (Demo.get "/sitemap.xml")) Demo.instant)
       ∧ Loc u = "https://example.com"
       ∧ Priority u = float_1_0
       ∧ marshalPriority u = "<priority>1</priority>"
       ∧ marshalPriority u ≠ "<priority>1.0</priority>".
Proof.
  exists {| Loc := "https://example.com"; Lastmod := Demo.instant; Priority := float_1_0 |}.
  split_and!; try done. vm_compute. by left.
Qed.

(** * The registry *)

Section registry.
Context `{L : GoLib}.

(** What a forwarded request does to the registry. *)
Lemma ServeHTTP_records (sg : sitemapGenerator) rw req now sv :
  URL_Path req ≠ sitemapPath sg →
  URL_Path req ≠ robotsPath sg →
  ServeHTTP sg rw req now = Return sv →
  let calls := next sg req in
  let h := headersAfter calls (rw_Header rw) in
  paths (served_sg sv)
  = if negb (isIgnored sg (URL_Path req)) && (observedStatus calls =? StatusOK)
       && negb (returnsEarly sg h calls)
    then {[ fullURL req ]} ∪ paths sg
    else paths sg.
Proof.
  intros H1 H2. rewrite ServeHTTP_forward by done. cbv zeta.
  unfold returnsEarly.
  set (calls := next sg req). set (h := headersAfter calls (rw_Header rw)).
  set (cond := negb (isIgnored sg (URL_Path req)) && (observedStatus calls =? StatusOK)).
  destruct (gunzipBody (isGzipped h) (written calls)) as [bodyStr|].
  - destruct (negb (String.eqb (gtmID sg) EmptyString) && isHTML h
              && (observedStatus calls =? StatusOK)).
    + destruct (insertNoscript (gtmID sg) (insertScript (gtmID sg) bodyStr))
        as [modified|]; [|done].
      cbn [result_bind andb].
      destruct (gzipBody (isGzipped h) modified).
      * intros [= <-]. cbn [served_sg negb]. rewrite andb_true_r. by destruct cond.
      * intros [= <-]. cbn [served_sg negb]. by rewrite andb_false_r.
    + intros [= <-]. cbn [served_sg andb negb]. rewrite andb_true_r. by destruct cond.
  - intros [= <-]. cbn [served_sg negb]. by rewrite andb_false_r.
Qed.

Lemma ServeHTTP_paths (sg : sitemapGenerator) rw req now sv :
  ServeHTTP sg rw req now = Return sv →
  paths (served_sg sv) = paths sg
  ∨ paths (served_sg sv) = {[ fullURL req ]} ∪ paths sg.
Proof.
  intros H.
  destruct (decide (URL_Path req = sitemapPath sg)) as [Hs|Hs].
  { rewrite ServeHTTP_sitemap in H by done.
    destruct (buildSitemapXML sg (Some req) now); injection H as <-; by left. }
  destruct (decide (URL_Path req = robotsPath sg)) as [Hr|Hr].
  { rewrite ServeHTTP_robots in H by done. injection H as <-. by left. }
  rewrite (ServeHTTP_records sg rw req now sv) by done.
  case_match; [by right|by left].
Qed.

(** C6 (amended).  Every URL of a registry that started empty was
    stored for one of the requests served since: it is [scheme://host]
    of that request followed by its path with one trailing slash
    removed, when there was one.  It does not end in a slash provided
    that path does not end in two slashes and the host is neither empty
    nor ends in a slash, and it does end in a slash when the path ends
    in two; so no URL of the registry ends in a slash when no request
    served had such a path or host.  The next request served stores its
    own URL of that form, or nothing. *)
Theorem registry_holds_canonical_urls (sg0 sg : sitemapGenerator) (reqs : list Request) :
  paths sg0 = ∅ →
  servedFrom sg0 reqs sg →
  (∀ u, u ∈ paths sg →
     ∃ req, req ∈ reqs
       ∧ let base := requestScheme req +:+ "://" +:+ Host req in
         u = base +:+ Strings.TrimSuffix (URL_Path req) "/"
         ∧ (∀ p, URL_Path req = p +:+ "/" → u = base +:+ p)
         ∧ (Strings.HasSuffix (URL_Path req) "/" = false → u = base +:+ URL_Path req)
         ∧ (Strings.HasSuffix (URL_Path req) "//" = false →
            Host req ≠ EmptyString →
            Strings.HasSuffix (Host req) "/" = false →
            Strings.HasSuffix u "/" = false)
         ∧ (Strings.HasSuffix (URL_Path req) "//" = true →
            Strings.HasSuffix u "/" = true))
  ∧ ((∀ req, req ∈ reqs →
        Strings.HasSuffix (URL_Path req) "//" = false
        ∧ Host req ≠ EmptyString
        ∧ Strings.HasSuffix (Host req) "/" = false) →
     ∀ u, u ∈ paths sg → Strings.HasSuffix u "/" = false)
  ∧ (∀ h rw req now sv,
       ServeHTTP (with_next h sg) rw req now = Return sv →
       paths (served_sg sv) = paths sg
       ∨ paths (served_sg sv)
         = {[ (requestScheme req +:+ "://" +:+ Host req)
              +:+ Strings.TrimSuffix (URL_Path req) "/" ]} ∪ paths sg).
Proof.
  intros Hempty Hserved.
  assert (∀ u, u ∈ paths sg → ∃ req, req ∈ reqs ∧ u = fullURL req) as Hfrom.
  { induction Hserved as [|reqs sg h rw req now sv _ IH Hserve]; intros u Hu.
    - rewrite Hempty in Hu. by apply not_elem_of_empty in Hu.
    - apply ServeHTTP_paths in Hserve as [Hsame|Hnew].
      + rewrite Hsame in Hu. destruct (IH u Hu) as (r & Hr & ->).
        exists r. split; [|done]. apply elem_of_app. by left.
      + rewrite Hnew in Hu. apply elem_of_union in Hu as [Hu|Hu].
        * apply elem_of_singleton in Hu as ->. exists req. split; [|done].
          apply elem_of_app. right. by apply list_elem_of_singleton.
        * destruct (IH u Hu) as (r & Hr & ->).
          exists r. split; [|done]. apply elem_of_app. by left. }
  split_and!.
  - intros u Hu. destruct (Hfrom u Hu) as (req & Hreq & ->).
    exists req. split; [done|]. cbv zeta. unfold fullURL. split_and!.
    + by rewrite !StringsFacts.app_assoc.
    + intros p ->. by rewrite SuffixFacts.TrimSuffix_app, !StringsFacts.app_assoc.
    + intros Hn. by rewrite SuffixFacts.TrimSuffix_none, !StringsFacts.app_assoc.
    + apply SuffixFacts.canonical_no_slash.
    + apply SuffixFacts.canonical_slash.
  - intros Hall u Hu. destruct (Hfrom u Hu) as (req & Hreq & ->).
    destruct (Hall req Hreq) as (Hp & Hne & Hh).
    by apply SuffixFacts.canonical_no_slash.
  - intros h rw req now sv Hserve.
    apply ServeHTTP_paths in Hserve as [Hsame|Hnew]; [by left|right].
    rewrite Hnew. cbn [paths with_next]. unfold fullURL.
    by rewrite !StringsFacts.app_assoc.
Qed.

(** C4.  In the rewrite branch the script block stands immediately
    before the first [</head>] of the body, which is otherwise copied
    byte for byte, later instances of [</head>] included; a body without
    [</head>] goes on unchanged.  The client receives that text after
    the insertion behind the body tag (and the recompression, for a gzip
    body). *)
Theorem script_before_first_head (sg : sitemapGenerator) rw req now bodyStr :
  URL_Path req ≠ sitemapPath sg →
  URL_Path req ≠ robotsPath sg →
  let calls := next sg req in
  let h := headersAfter calls (rw_Header rw) in
  gtmID sg ≠ EmptyString →
  isHTML h = true →
  observedStatus calls = StatusOK →
  gunzipBody (isGzipped h) (written calls) = Some bodyStr →
  let modified := insertScript (gtmID sg) bodyStr in
  match Strings.Index bodyStr "</head>" with
  | Some j =>
      modified = Strings.take j bodyStr +:+ gtmScriptTemplate (gtmID sg)
                 +:+ Strings.drop j bodyStr
      ∧ Strings.HasPrefix (Strings.drop j bodyStr) "</head>" = true
      ∧ ∀ i, (i < j)%nat → Strings.HasPrefix (Strings.drop i bodyStr) "</head>" = false
  | None =>
      modified = bodyStr
      ∧ ∀ i, Strings.HasPrefix (Strings.drop i bodyStr) "</head>" = false
  end
  ∧ ∀ final out,
      insertNoscript (gtmID sg) modified = Return final →
      gzipBody (isGzipped h) final = Some out →
      ∃ sv, ServeHTTP sg rw req now = Return sv
            ∧ rw_calls (served_rw sv)
              = rw_calls rw ++ [CallWriteHeader StatusOK; CallWrite out].
Proof.
  intros H1 H2 calls h Hid Hhtml Hstatus Hbody modified. split.
  - unfold modified. rewrite insertScript_spec.
    destruct (Strings.Index bodyStr "</head>") as [j|] eqn:E.
    + apply StringsFacts.Index_Some in E as (Hpre & _ & Hfirst). done.
    + split; [done|]. by apply StringsFacts.Index_None.
  - intros final out Hfinal Hout.
    rewrite ServeHTTP_forward by done. cbv zeta. fold calls. fold h.
    rewrite Hbody, Hhtml, Hstatus.
    apply String.eqb_neq in Hid. rewrite Hid. cbn [negb andb Z.eqb].
    change (StatusOK =? StatusOK) with true. cbn iota.
    fold modified. rewrite Hfinal. cbn [result_bind]. rewrite Hout.
    eexists. split; [done|]. cbn. by rewrite <- app_assoc.
Qed.

End registry.

Lemma returned_Return `{L : GoLib} (r : result served) (sg : sitemapGenerator) :
  is_Return r = true → r = Return (returned r sg).
Proof. by destruct r. Qed.

(** C6 as stated fails: a path that ends in two slashes leaves a URL that
    ends in a slash. *)
Lemma double_slash_leaves_trailing_slash :
  outcome (ServeHTTP Demo.shop Demo.client (Demo.get "/blog//") Demo.instant)
  = Some ([CallWriteHeader 200; CallWrite Demo.page], ["https://example.com/blog/"])
  ∧ Strings.HasSuffix "https://example.com/blog/" "/" = true.
Proof. split; by vm_compute. Qed.

(** C6 at work: the registry of the shop after [/blog/] was served. *)
Lemma registry_witness :
  (∀ u, u ∈ paths (served_sg Demo2.afterBlog) →
     ∃ req, req ∈ [Demo.get "/blog/"]
       ∧ let base := requestScheme req +:+ "://" +:+ Host req in
         u = base +:+ Strings.TrimSuffix (URL_Path req) "/"
         ∧ (∀ p, URL_Path req = p +:+ "/" → u = base +:+ p)
         ∧ (Strings.HasSuffix (URL_Path req) "/" = false → u = base +:+ URL_Path req)
         ∧ (Strings.HasSuffix (URL_Path req) "//" = false →
            Host req ≠ EmptyString →
            Strings.HasSuffix (Host req) "/" = false →
            Strings.HasSuffix u "/" = false)
         ∧ (Strings.HasSuffix (URL_Path req) "//" = true →
            Strings.HasSuffix u "/" = true))
  ∧ ((∀ req, req ∈ [Demo.get "/blog/"] →
        Strings.HasSuffix (URL_Path req) "//" = false
        ∧ Host req ≠ EmptyString
        ∧ Strings.HasSuffix (Host req) "/" = false) →
     ∀ u, u ∈ paths (served_sg Demo2.afterBlog) → Strings.HasSuffix u "/" = false)
  ∧ (∀ h rw req now sv,
       ServeHTTP (with_next h (served_sg Demo2.afterBlog)) rw req now = Return sv →
       paths (served_sg sv) = paths (served_sg Demo2.afterBlog)
       ∨ paths (served_sg sv)
         = {[ (requestScheme req +:+ "://" +:+ Host req)
              +:+ Strings.TrimSuffix (URL_Path req) "/" ]}
           ∪ paths (served_sg Demo2.afterBlog)).
Proof.
  apply (registry_holds_canonical_urls Demo.shop (served_sg Demo2.afterBlog)
           ([] ++ [Demo.get "/blog/"])).
  - by vm_compute.
  - apply (servedFrom_serve Demo.shop [] Demo.shop Demo.htmlHandler Demo.client
             (Demo.get "/blog/") Demo.instant Demo2.afterBlog).
    + apply servedFrom_new.
    + apply (returned_Return _ Demo.shop). by vm_compute.
Defined.

(** The registry that call leaves holds the one URL, without the slash. *)
Lemma blog_is_stored_without_its_slash :
  elements (paths (served_sg Demo2.afterBlog)) = ["https://example.com/blog"].
Proof. by vm_compute. Qed.

(** C4 at work: the page of the shop, analytics configured; [</head>]
    starts at byte 12. *)
Lemma script_witness :
  (insertScript "GTM-0000000" Demo.page
   = Strings.take 12 Demo.page +:+ gtmScriptTemplate "GTM-0000000"
     +:+ Strings.drop 12 Demo.page
   ∧ Strings.HasPrefix (Strings.drop 12 Demo.page) "</head>" = true
   ∧ ∀ i, (i < 12)%nat → Strings.HasPrefix (Strings.drop i Demo.page) "</head>" = false)
  ∧ ∀ final out,
      insertNoscript (L := Ref.lib) "GTM-0000000" (insertScript "GTM-0000000" Demo.page)
        = Return final →
      gzipBody (L := Ref.lib) false final = Some out →
      ∃ sv, ServeHTTP (Demo.generator Demo.htmlHandler Demo.withGTM)
              Demo.client (Demo.get "/products") Demo.instant = Return sv
            ∧ rw_calls (served_rw sv) = [CallWriteHeader StatusOK; CallWrite out].
Proof.
  apply (script_before_first_head
           (Demo.generator Demo.htmlHandler Demo.withGTM)
           Demo.client (Demo.get "/products") Demo.instant Demo.page).
  - vm_compute. discriminate.
  - vm_compute. discriminate.
  - vm_compute. discriminate.
  - vm_compute. reflexivity.
  - vm_compute. reflexivity.
  - vm_compute. reflexivity.
Defined.

(** C1 at the failing input.  The handler answers [/products] with
    status 200 and announces gzip, but the body is no gzip stream.  No
    ignore pattern matches the path, the status is 200, and the bytes are
    passed on; the URL is not recorded.  The same response without the
    gzip announcement is recorded. *)
Lemma unreadable_gzip_is_not_recorded :
  let sg := Demo.generator Demo.brokenGzipHandler CreateConfig in
  let req := Demo.get "/products" in
  isIgnored sg (URL_Path req) = false
  ∧ observedStatus (next sg req) = StatusOK
  ∧ outcome (ServeHTTP sg Demo.client req Demo.instant)
    = Some ([CallWriteHeader 200; CallWrite Demo.page], [])
  ∧ outcome (ServeHTTP Demo.shop Demo.client req Demo.instant)
    = Some ([CallWriteHeader 200; CallWrite Demo.page], ["https://example.com/products"]).
Proof. cbv zeta. split_and!; by vm_compute. Qed.

(** The host filter at work: a registry with URLs of two hosts. *)
Example sitemap_of_a_com :
  buildSitemapXML (L := Ref.lib)
    {| next := Demo.htmlHandler; name := "seo"; sitemapPath := "/sitemap.xml";
       robotsPath := "/robots.txt"; ignores := [];
       paths := {[ "https://a.com/x"; "https://b.com/y" ]}; gtmID := EmptyString |}
    (Some {| URL_Path := "/sitemap.xml"; URL_Scheme := "https"; Host := "a.com";
             req_Header := ∅ |})
    Demo.instant
  = Some (xml_Header +:+
      "<urlset xmlns=" +:+ dquote +:+ "http://www.sitemaps.org/schemas/sitemap/0.9" +:+ dquote +:+ ">" +:+ newline +:+
      "  <url>" +:+ newline +:+
      "    <loc>https://a.com</loc>" +:+ newline +:+
      "    <lastmod>2026-01-01T00:00:00Z</lastmod>" +:+ newline +:+
      "    <priority>1</priority>" +:+ newline +:+
      "  </url>" +:+ newline +:+
      "  <url>" +:+ newline +:+
      "    <loc>https://a.com/x</loc>" +:+ newline +:+
      "    <lastmod>2026-01-01T00:00:00Z</lastmod>" +:+ newline +:+
      "    <priority>0.8</priority>" +:+ newline +:+
      "  </url>" +:+ newline +:+
      "</urlset>").
Proof. by vm_compute. Qed.

(** The ignore examples of the specification. *)
Example ignore_examples :
  isIgnored Demo.shop "/image.png" = true
  ∧ isIgnored (Demo.generator Demo.htmlHandler Demo.withGTM) "/admin/x" = true
  ∧ isIgnored Demo.shop "/products" = false.
Proof. split_and!; by vm_compute. Qed.

(** A later [WriteHeader] wins, also after a [Write]. *)
Example status_examples :
  observedStatus [] = 200
  ∧ observedStatus [HWrite "x"] = 200
  ∧ observedStatus [HWrite "x"; HWriteHeader 404] = 404
  ∧ observedStatus [HWriteHeader 404; HWrite "x"; HWriteHeader 500] = 500.
Proof. by split_and!. Qed.

(** * More of ServeHTTP *)

Section more_serve.
Context `{L : GoLib}.

(** The three ways a forwarded request ends when [ServeHTTP] returns: an
    early return after a gzip error, the passthrough, the rewrite. *)
Lemma ServeHTTP_forward_inv (sg : sitemapGenerator) rw req now sv :
  URL_Path req ≠ sitemapPath sg →
  URL_Path req ≠ robotsPath sg →
  ServeHTTP sg rw req now = Return sv →
  let calls := next sg req in
  let h := headersAfter calls (rw_Header rw) in
  (returnsEarly sg h calls = true
   ∧ sv = {| served_sg := sg; served_rw := through rw calls; served_next := [req] |})
  ∨ (returnsEarly sg h calls = false ∧ rewrites sg h calls = false
     ∧ sv = {| served_sg := recorded sg req; served_rw := through rw calls;
               served_next := [req] |})
  ∨ (returnsEarly sg h calls = false ∧ rewrites sg h calls = true
     ∧ ∃ bodyStr modified bodyBytes,
         gunzipBody (isGzipped h) (written calls) = Some bodyStr
         ∧ insertNoscript (gtmID sg) (insertScript (gtmID sg) bodyStr) = Return modified
         ∧ gzipBody (isGzipped h) modified = Some bodyBytes
         ∧ sv = {| served_sg := recorded sg req;
                   served_rw :=
                     rw_Write (rw_WriteHeader
                       (rw_setHeader (λ h, Header_Del h "Content-Length")
                          (afterHandler rw calls))
                       (observedStatus calls)) bodyBytes;
                   served_next := [req] |}).
Proof.
  intros H1 H2. rewrite ServeHTTP_forward by done. cbv zeta.
  unfold returnsEarly, rewrites, through, recorded, afterHandler.
  set (calls := next sg req). set (h := headersAfter calls (rw_Header rw)).
  destruct (gunzipBody (isGzipped h) (written calls)) as [bodyStr|].
  - destruct (negb (String.eqb (gtmID sg) EmptyString) && isHTML h
              && (observedStatus calls =? StatusOK)) eqn:Ec.
    + destruct (insertNoscript (gtmID sg) (insertScript (gtmID sg) bodyStr))
        as [modified|] eqn:Ei; [|done].
      cbn [result_bind andb].
      destruct (gzipBody (isGzipped h) modified) as [bodyBytes|] eqn:Eg.
      * intros [= <-]. right. right. split_and!; try done.
        by exists bodyStr, modified, bodyBytes.
      * intros [= <-]. by left.
    + intros [= <-]. right. left. by split_and!.
  - intros [= <-]. by left.
Qed.

(** A returning call leaves the generator as it was or with one URL
    recorded. *)
Lemma ServeHTTP_sg (sg : sitemapGenerator) rw req now sv :
  ServeHTTP sg rw req now = Return sv →
  served_sg sv = sg ∨ served_sg sv = record (fullURL req) sg.
Proof.
  intros H.
  destruct (decide (URL_Path req = sitemapPath sg)) as [Hs|Hs].
  { rewrite ServeHTTP_sitemap in H by done.
    destruct (buildSitemapXML sg (Some req) now); injection H as <-; by left. }
  destruct (decide (URL_Path req = robotsPath sg)) as [Hr|Hr].
  { rewrite ServeHTTP_robots in H by done. injection H as <-. by left. }
  apply ServeHTTP_forward_inv in H; [|done..]. cbv zeta in H.
  assert (recorded sg req = sg ∨ recorded sg req = record (fullURL req) sg) as Hrec.
  { unfold recorded. case_match; [by right|by left]. }
  destruct H as [[_ ->]|[(_ & _ & ->)|(_ & _ & ? & ? & ? & _ & _ & _ & ->)]]; try done.
  by left.
Qed.

End more_serve.

Section serve_properties.
Context `{L : GoLib}.

(** X1.  The registry never shrinks: whatever requests are served, every
    URL that was in the registry stays in it. *)
Theorem registry_never_shrinks (sg0 sg : sitemapGenerator) :
  reachable sg0 sg → paths sg0 ⊆ paths sg.
Proof.
  induction 1 as [|sg h rw req now sv _ IH Hserve]; [done|].
  destruct (ServeHTTP_sg _ _ _ _ _ Hserve) as [Heq|Heq]; rewrite Heq; [done|].
  cbn. etrans; [done|]. apply union_subseteq_r.
Qed.

(** X2.  Recording is idempotent: a request whose canonical URL is
    already in the registry leaves the registry as it is, whatever the
    response. *)
Theorem known_url_is_not_recorded_again (sg : sitemapGenerator) rw req now sv :
  requestScheme req +:+ "://" +:+ Host req +:+ Strings.TrimSuffix (URL_Path req) "/"
    ∈ paths sg →
  ServeHTTP sg rw req now = Return sv →
  paths (served_sg sv) = paths sg.
Proof.
  intros Hin H. destruct (ServeHTTP_sg _ _ _ _ _ H) as [Heq|Heq]; rewrite Heq; [done|].
  cbn. unfold fullURL. by apply subseteq_union_1_L, singleton_subseteq_l.
Qed.

(** X3.  Serving a request changes nothing of the generator but the
    registry: handler, name, the two paths, the ignore patterns and the
    analytics ID are those of before. *)
Theorem ServeHTTP_keeps_configuration (sg : sitemapGenerator) rw req now sv :
  ServeHTTP sg rw req now = Return sv →
  next (served_sg sv) = next sg
  ∧ name (served_sg sv) = name sg
  ∧ sitemapPath (served_sg sv) = sitemapPath sg
  ∧ robotsPath (served_sg sv) = robotsPath sg
  ∧ ignores (served_sg sv) = ignores sg
  ∧ gtmID (served_sg sv) = gtmID sg.
Proof. intros H. by destruct (ServeHTTP_sg _ _ _ _ _ H) as [Heq|Heq]; rewrite Heq. Qed.

(** X4.  Every call of [ServeHTTP] that returns writes to the client
    exactly one status and then exactly one body, after whatever the
    writer had received before: never a body without a status, never two
    of either. *)
Theorem client_gets_one_status_then_one_body (sg : sitemapGenerator) rw req now sv :
  ServeHTTP sg rw req now = Return sv →
  ∃ code b, rw_calls (served_rw sv) = rw_calls rw ++ [CallWriteHeader code; CallWrite b].
Proof.
  intros H.
  destruct (decide (URL_Path req = sitemapPath sg)) as [Hs|Hs].
  { rewrite ServeHTTP_sitemap in H by done.
    destruct (buildSitemapXML sg (Some req) now); simplify_eq;
      do 2 eexists; cbn; by rewrite <- app_assoc. }
  destruct (decide (URL_Path req = robotsPath sg)) as [Hr|Hr].
  { rewrite ServeHTTP_robots in H by done. simplify_eq.
    do 2 eexists; cbn; by rewrite <- app_assoc. }
  apply ServeHTTP_forward_inv in H; [|done..]. cbv zeta in H.
  destruct H as [[_ ->]|[(_ & _ & ->)|(_ & _ & ? & ? & ? & _ & _ & _ & ->)]];
    do 2 eexists; cbn; by rewrite <- app_assoc.
Qed.


(** X6.  The fallback after a gzip error.  When the gzip body cannot be
    read, or the rewritten body cannot be compressed, the client receives
    the status and the bytes the handler wrote, the header map is the one
    the handler left (Content-Length included), and nothing is
    recorded. *)
Theorem gzip_error_falls_back_to_the_buffered_bytes (sg : sitemapGenerator) rw req now :
  URL_Path req ≠ sitemapPath sg →
  URL_Path req ≠ robotsPath sg →
  let calls := next sg req in
  let h := headersAfter calls (rw_Header rw) in
  gunzipBody (isGzipped h) (written calls) = None
  ∨ (∃ bodyStr modified,
       gunzipBody (isGzipped h) (written calls) = Some bodyStr
       ∧ gtmID sg ≠ EmptyString ∧ isHTML h = true ∧ observedStatus calls = StatusOK
       ∧ insertNoscript (gtmID sg) (insertScript (gtmID sg) bodyStr) = Return modified
       ∧ gzipBody (isGzipped h) modified = None) →
  ∃ sv, ServeHTTP sg rw req now = Return sv
        ∧ served_sg sv = sg
        ∧ rw_Header (served_rw sv) = h
        ∧ rw_calls (served_rw sv)
          = rw_calls rw ++ [CallWriteHeader (observedStatus calls); CallWrite (written calls)].
Proof.
  intros H1 H2 calls h Hcase. rewrite ServeHTTP_forward by done. cbv zeta.
  fold calls. fold h.
  destruct Hcase as [->|(bodyStr & modified & -> & Hid & -> & -> & -> & Hz)].
  - eexists. split_and!; try done. cbn. by rewrite <- app_assoc.
  - apply String.eqb_neq in Hid. rewrite Hid. cbn. rewrite Hz.
    eexists. split_and!; try done. cbn. by rewrite <- app_assoc.
Qed.

(** X7.  A rewritten response loses its Content-Length header, and only
    that one: every other key of the header map is as the handler left
    it. *)
Theorem rewrite_drops_content_length_only (sg : sitemapGenerator) rw req now sv :
  URL_Path req ≠ sitemapPath sg →
  URL_Path req ≠ robotsPath sg →
  ServeHTTP sg rw req now = Return sv →
  let calls := next sg req in
  let h := headersAfter calls (rw_Header rw) in
  rewrites sg h calls = true →
  returnsEarly sg h calls = false →
  Header_Get (rw_Header (served_rw sv)) "Content-Length" = EmptyString
  ∧ ∀ key, key ≠ "Content-Length" → rw_Header (served_rw sv) !! key = h !! key.
Proof.
  intros H1 H2 H calls h Hrw Hearly.
  apply ServeHTTP_forward_inv in H; [|done..]. cbv zeta in H. fold calls h in H.
  destruct H as [[? _]|[(_ & ? & _)|(_ & _ & ? & ? & ? & _ & _ & _ & ->)]];
    [congruence..|].
  cbn. unfold Header_Get, Header_Del, afterHandler. cbn. fold calls. fold h. split.
  - by rewrite lookup_delete_eq.
  - intros key Hne. by rewrite lookup_delete_ne.
Qed.

End serve_properties.

(** * The rewrite *)

Module LengthFacts.
Import Strings StringsFacts.

Lemma length_take_drop (n : nat) (s : string) :
  (String.length (take n s) + String.length (drop n s))%nat = String.length s.
Proof. by rewrite <- length_app, take_drop. Qed.

Lemma length_insert (n : nat) (s x : string) :
  String.length (take n s +:+ x +:+ drop n s) = (String.length s + String.length x)%nat.
Proof. rewrite !length_app. pose proof (length_take_drop n s). lia. Qed.

End LengthFacts.

Section rewrite_properties.
Context `{L : GoLib}.

(** X8.  The rewrite only adds: the rewritten text is as long as the
    body plus the script block, when the body holds [</head>], plus the
    noscript block, when the body tag is found; nothing of the body is
    dropped. *)
Theorem rewrite_adds_the_blocks_only (gtmID bodyStr final : string) (re : Regexp) :
  regexp_Compile bodyTagPattern = inl re →
  insertNoscript gtmID (insertScript gtmID bodyStr) = Return final →
  String.length final
  = (String.length bodyStr
     + match Strings.Index bodyStr "</head>" with
       | Some _ => String.length (gtmScriptTemplate gtmID)
       | None => 0
       end
     + match regexp_FindStringIndex re (insertScript gtmID bodyStr) with
       | Some _ => String.length (gtmNoscriptTemplate gtmID)
       | None => 0
       end)%nat.
Proof.
  intros Hre. unfold insertNoscript, regexp_MustCompile. rewrite Hre. cbn [result_bind].
  assert (String.length (insertScript gtmID bodyStr)
          = (String.length bodyStr
             + match Strings.Index bodyStr "</head>" with
               | Some _ => String.length (gtmScriptTemplate gtmID)
               | None => 0
               end)%nat) as Hlen.
  { rewrite insertScript_spec. destruct (Strings.Index bodyStr "</head>").
    - apply LengthFacts.length_insert.
    - lia. }
  destruct (regexp_FindStringIndex re (insertScript gtmID bodyStr)) as [[lo hi]|].
  - destruct (hi <=? String.length (insertScript gtmID bodyStr))%nat; [|discriminate].
    intros [= <-]. rewrite LengthFacts.length_insert. lia.
  - intros [= <-]. lia.
Qed.



End rewrite_properties.


(** * More of the sitemap builder *)

Section more_sitemap.
Context `{L : GoLib}.

#[local] Existing Instance pathInfo_le_trans.
#[local] Existing Instance pathInfo_le_total.

Lemma loc_snapshot (sg : sitemapGenerator) : loc <$> snapshot sg = elements (paths sg).
Proof.
  unfold snapshot. induction (elements (paths sg)) as [|u l IH]; [done|].
  cbn. by rewrite IH.
Qed.

Lemma URLs_locs_any (infos : list pathInfo) (req : option Request) now :
  Loc <$> URLs (buildURLSet infos req now) = loc <$> sort_Slice (filterInfos req infos).1.
Proof.
  unfold buildURLSet. destruct (filterInfos req infos) as [filteredInfos base].
  cbn [URLs fst]. by rewrite <- list_fmap_compose.
Qed.

(** The locations of a sitemap built for a request. *)
Lemma locs_request (sg : sitemapGenerator) (req : Request) now :
  let base := requestScheme req +:+ "://" +:+ Host req in
  Loc <$> URLs (buildURLSet (snapshot sg) (Some req) now)
  ≡ₚ filter (λ u, keeps base u = true) (elements (paths sg))
       ++ (if decide (base ∈ paths sg) then [] else [base]).
Proof.
  intros base. rewrite URLs_locs. fold base.
  rewrite fmap_app, snapshot_filter.
  pose proof (snapshot_root sg base) as Hroot.
  destruct (existsb _ (snapshot sg)); case_decide as Hb; try done.
  - destruct Hb. by apply Hroot.
  - by apply Hroot in Hb.
Qed.

Lemma locs_request_elem (sg : sitemapGenerator) (req : Request) now (u : string) :
  let base := requestScheme req +:+ "://" +:+ Host req in
  u ∈ Loc <$> URLs (buildURLSet (snapshot sg) (Some req) now)
  ↔ (u ∈ paths sg ∧ keeps base u = true) ∨ u = base.
Proof.
  intros base. rewrite locs_request. fold base.
  rewrite elem_of_app, list_elem_of_filter, elem_of_elements.
  case_decide as Hb.
  - rewrite elem_of_nil. split; [tauto|]. intros [H| ->]; [tauto|].
    left. split; [|done]. unfold keeps. by rewrite String.eqb_refl, orb_true_r.
  - rewrite list_elem_of_singleton. tauto.
Qed.

Lemma locs_NoDup (sg : sitemapGenerator) (req : option Request) now :
  NoDup (Loc <$> URLs (buildURLSet (snapshot sg) req now)).
Proof.
  destruct req as [req|].
  - rewrite locs_request. apply NoDup_app. split_and!.
    + apply NoDup_filter, NoDup_elements.
    + intros u [_ Hu]%list_elem_of_filter Hx. apply elem_of_elements in Hu.
      case_decide; [by apply elem_of_nil in Hx|].
      by apply list_elem_of_singleton in Hx as ->.
    + case_decide; [constructor|apply NoDup_singleton].
  - rewrite URLs_locs_any. cbn [filterInfos fst].
    rewrite sort_Slice_Permutation, loc_snapshot. apply NoDup_elements.
Qed.

Lemma locs_sorted (infos : list pathInfo) (req : option Request) now :
  StronglySorted String.le (Loc <$> URLs (buildURLSet infos req now)).
Proof.
  rewrite URLs_locs_any.
  apply (StronglySorted_fmap loc pathInfo_le); [done|].
  apply StronglySorted_merge_sort; apply _.
Qed.

Lemma le_ne_ltb (a b : string) : (a ≤ b)%string → a ≠ b → String.ltb a b = true.
Proof.
  unfold String.le, String.leb, String.ltb. intros Hle Hne.
  destruct (String.compare a b) eqn:E; [|done|done].
  by apply String.compare_eq_iff in E.
Qed.

Lemma StronglySorted_strict (l : list string) :
  StronglySorted String.le l → NoDup l →
  StronglySorted (λ a b, String.ltb a b = true) l.
Proof.
  induction 1 as [|a l Hl IH Ha]; intros Hnd; [constructor|].
  apply NoDup_cons in Hnd as [Hnotin Hnd]. constructor; [by apply IH|].
  rewrite Forall_forall in Ha |- *. intros b Hb.
  apply le_ne_ltb; [by apply Ha|]. by intros ->.
Qed.

(** X11.  The entries of a sitemap stand in strictly ascending byte
    order of their locations, each location before all that follow,
    whether the sitemap is built for a request or not. *)
Theorem sitemap_is_strictly_sorted (sg : sitemapGenerator) (req : option Request) now :
  StronglySorted (λ a b, String.ltb a b = true)
    (Loc <$> URLs (buildURLSet (snapshot sg) req now)).
Proof. apply StronglySorted_strict; [apply locs_sorted|apply locs_NoDup]. Qed.

(** X12.  The sitemap does not depend on the order in which the map
    iteration delivers the registry: any order of the same URLs gives
    the same URL set and the same document. *)
Theorem sitemap_ignores_iteration_order (sg : sitemapGenerator) (infos : list pathInfo)
    (req : option Request) now :
  infos ≡ₚ snapshot sg →
  buildURLSet infos req now = buildURLSet (snapshot sg) req now
  ∧ match xml_MarshalIndent (buildURLSet infos req now) with
    | Some output => Some (xml_Header +:+ output)
    | None => None
    end = buildSitemapXML sg req now.
Proof.
  intros H. apply (buildURLSet_order _ _ req now) in H.
  split; [done|]. unfold buildSitemapXML. by rewrite H.
Qed.

(** X13.  Built without a request, the sitemap lists the whole registry,
    each URL once, every entry with priority 0.8 and the instant of the
    call. *)
Theorem sitemap_without_request_lists_everything (sg : sitemapGenerator) now :
  let urls := URLs (buildURLSet (snapshot sg) None now) in
  (∀ u, u ∈ Loc <$> urls ↔ u ∈ paths sg)
  ∧ NoDup (Loc <$> urls)
  ∧ Forall (λ u, Priority u = float_0_8 ∧ Lastmod u = now) urls.
Proof.
  intros urls. split_and!.
  - intros u. unfold urls. rewrite URLs_locs_any. cbn [filterInfos fst].
    by rewrite sort_Slice_Permutation, loc_snapshot, elem_of_elements.
  - apply locs_NoDup.
  - unfold urls, buildURLSet. cbn [filterInfos URLs].
    apply Forall_fmap, Forall_forall. by intros info _.
Qed.

Lemma filter_root_nil (base now : string) (l : list pathInfo) :
  base ∉ loc <$> l →
  filter (λ u, Priority u = float_1_0)
    ((λ info, {| Loc := loc info; Lastmod := now; Priority := priorityOf base info |}) <$> l)
  = [].
Proof.
  induction l as [|info l IH]; [done|]. rewrite fmap_cons, not_elem_of_cons.
  intros [Hne Hl]. rewrite fmap_cons, filter_cons. cbn [Priority].
  rewrite decide_False; [by apply IH|].
  unfold priorityOf. apply not_eq_sym, String.eqb_neq in Hne. rewrite Hne.
  by rewrite andb_false_r.
Qed.

Lemma filter_root_one (base now : string) (l : list pathInfo) :
  String.eqb base EmptyString = false →
  NoDup (loc <$> l) →
  base ∈ loc <$> l →
  filter (λ u, Priority u = float_1_0)
    ((λ info, {| Loc := loc info; Lastmod := now; Priority := priorityOf base info |}) <$> l)
  = [{| Loc := base; Lastmod := now; Priority := float_1_0 |}].
Proof.
  intros Hb. induction l as [|info l IH]; [by intros _ ?%elem_of_nil|].
  rewrite !fmap_cons, filter_cons. cbn [Priority].
  intros [Hnotin Hnd]%NoDup_cons Hin.
  destruct (decide (loc info = base)) as [Heq|Hne].
  - rewrite decide_True.
    + rewrite filter_root_nil by by rewrite <- Heq.
      unfold priorityOf. by rewrite Hb, Heq, String.eqb_refl.
    + unfold priorityOf. by rewrite Hb, Heq, String.eqb_refl.
  - rewrite decide_False.
    + apply IH; [done|]. apply elem_of_cons in Hin as [Hin|Hin]; [done|done].
    + unfold priorityOf. apply String.eqb_neq in Hne. by rewrite Hne, andb_false_r.
Qed.

(** X14.  A sitemap built for a request is never empty and has exactly
    one entry of priority 1.0, the entry of [base]. *)
Theorem sitemap_has_exactly_one_root (sg : sitemapGenerator) (req : Request) now :
  let base := requestScheme req +:+ "://" +:+ Host req in
  filter (λ u, Priority u = float_1_0) (URLs (buildURLSet (snapshot sg) (Some req) now))
  = [{| Loc := base; Lastmod := now; Priority := float_1_0 |}].
Proof.
  intros base.
  pose proof (locs_NoDup sg (Some req) now) as Hnd.
  pose proof (proj2 (locs_request_elem sg req now base) (or_intror eq_refl)) as Hin.
  rewrite URLs_locs_any in Hnd, Hin.
  unfold buildURLSet. destruct (filterInfos (Some req) (snapshot sg)) as [f b] eqn:E.
  assert (b = base) as ->.
  { unfold filterInfos in E. fold base in E. destruct (fold_left _ _ _). by simplify_eq. }
  cbn [URLs fst] in *. apply filter_root_one; [apply base_nonempty|done..].
Qed.

End more_sitemap.

(** * From a served page to the sitemap *)

Section round_trip.
Context `{L : GoLib}.

(** The canonical URL of a rooted path is [base] or lies below it. *)
Lemma canonical_is_kept (scheme host path : string) :
  path = EmptyString ∨ Strings.HasPrefix path "/" = true →
  keeps (scheme +:+ "://" +:+ host)
    (scheme +:+ "://" +:+ host +:+ Strings.TrimSuffix path "/") = true.
Proof.
  intros Hpath. unfold keeps. apply orb_true_iff.
  rewrite <- !StringsFacts.app_assoc.
  set (base := (scheme +:+ "://") +:+ host).
  assert (Strings.TrimSuffix path "/" = EmptyString
          ∨ ∃ r, Strings.TrimSuffix path "/" = "/" +:+ r) as [->|[r ->]].
  { destruct Hpath as [->|Hpre]; [by left|].
    apply StringsFacts.HasPrefix_spec in Hpre as [rest ->].
    destruct (Strings.HasSuffix ("/" +:+ rest) "/") eqn:E.
    - apply SuffixFacts.HasSuffix_spec in E as [p Hp].
      rewrite Hp, SuffixFacts.TrimSuffix_app.
      destruct p as [|c p]; [by left|right].
      rewrite StringsFacts.app_cons in Hp. injection Hp as <- _. by exists p.
    - right. exists rest. by rewrite SuffixFacts.TrimSuffix_none. }
  - right. rewrite StringsFacts.app_nil_r. apply String.eqb_refl.
  - left. apply StringsFacts.HasPrefix_spec. exists r.
    by rewrite !StringsFacts.app_assoc.
Qed.

(** X15.  A page that was served and recorded is listed by the next
    sitemap of its host: when a request for a rooted path (empty, or
    starting with a slash) is not ignored, answered with status 200 and
    not cut short by a gzip error, every later sitemap built for the same
    scheme and host holds its canonical URL. *)
Theorem recorded_page_is_listed (sg : sitemapGenerator) rw req now sv req' now' :
  URL_Path req ≠ sitemapPath sg →
  URL_Path req ≠ robotsPath sg →
  ServeHTTP sg rw req now = Return sv →
  isIgnored sg (URL_Path req) = false →
  observedStatus (next sg req) = StatusOK →
  returnsEarly sg (headersAfter (next sg req) (rw_Header rw)) (next sg req) = false →
  URL_Path req = EmptyString ∨ Strings.HasPrefix (URL_Path req) "/" = true →
  requestScheme req' = requestScheme req →
  Host req' = Host req →
  requestScheme req +:+ "://" +:+ Host req +:+ Strings.TrimSuffix (URL_Path req) "/"
  ∈ Loc <$> URLs (buildURLSet (snapshot (served_sg sv)) (Some req') now').
Proof.
  intros H1 H2 H Hign Hst Hearly Hpath Hscheme Hhost.
  apply ServeHTTP_records in H; [|done..]. cbv zeta in H.
  rewrite Hign, Hst, Hearly in H. cbn in H.
  apply locs_request_elem. cbv zeta. rewrite Hscheme, Hhost. left. split.
  - rewrite H. unfold fullURL. apply elem_of_union_l. by apply elem_of_singleton.
  - by apply canonical_is_kept.
Qed.

End round_trip.

(** * More of New *)

Section more_New.
Context `{L : GoLib}.

(** X16.  A generator built by [New] never has an empty sitemap or
    robots path: an empty path of the configuration is replaced by
    [/sitemap.xml] or [/robots.txt], any other is taken as it is; the
    analytics ID, the handler and the name are those given. *)
Theorem New_fills_in_default_paths (h : Handler) (config : Config) (nm : string)
    (sg : sitemapGenerator) :
  New h config nm = Return (inl sg) →
  sitemapPath sg
    = (if decide (SitemapPath config = EmptyString) then "/sitemap.xml" else SitemapPath config)
  ∧ robotsPath sg
    = (if decide (RobotsPath config = EmptyString) then "/robots.txt" else RobotsPath config)
  ∧ sitemapPath sg ≠ EmptyString
  ∧ robotsPath sg ≠ EmptyString
  ∧ gtmID sg = GTMID config
  ∧ next sg = h
  ∧ name sg = nm.
Proof.
  unfold New. destruct (compileUser _ _) as [ign|]; [|done].
  destruct (compileDefaults _ _) as [ign'|]; [|done]. cbn.
  intros [= <-]. cbn.
  destruct (String.eqb_spec (SitemapPath config) EmptyString) as [->|Hs];
    destruct (String.eqb_spec (RobotsPath config) EmptyString) as [->|Hr];
    repeat case_decide; by split_and!.
Qed.

(** X17.  The error of [New] names the first user pattern that does not
    compile and carries the message of package regexp, whatever follows
    that pattern in the list. *)
Theorem New_reports_the_first_bad_pattern (h : Handler) (config : Config) (nm : string)
    (before after : list string) (pattern err : string) :
  Ignore config = before ++ pattern :: after →
  Forall (λ p, ∃ re, regexp_Compile p = inl re) before →
  regexp_Compile pattern = inr err →
  New h config nm = Return (inr ("invalid ignore regex " +:+ pattern +:+ ": " +:+ err)).
Proof.
  intros Hlist Hbefore Herr. unfold New. rewrite Hlist. clear Hlist.
  assert (∀ acc, compileUser (before ++ pattern :: after) acc
                 = inr ("invalid ignore regex " +:+ pattern +:+ ": " +:+ err)) as ->; [|done].
  induction Hbefore as [|p ps [re Hre] _ IH]; intros acc; cbn.
  - by rewrite Herr.
  - by rewrite Hre, IH.
Qed.

End more_New.

(** * The two writers *)

(** X18.  The capturing writer buffers: while the handler runs, nothing
    is written to the client; the bytes of its [Write] calls are appended
    to the buffer in order; only the header map, which the handler
    reaches through [Header], changes. *)
Theorem capturing_writer_buffers (h : Handler) (mw : modifyingWriter) (req : Request) :
  let mw' := Handler_ServeHTTP h mw req in
  rw_calls (mw_ResponseWriter mw') = rw_calls (mw_ResponseWriter mw)
  ∧ mw_body mw' = mw_body mw +:+ written (h req)
  ∧ rw_Header (mw_ResponseWriter mw') = headersAfter (h req) (rw_Header (mw_ResponseWriter mw)).
Proof.
  intros mw'. unfold mw', Handler_ServeHTTP. split_and!.
  - apply fold_handle_rw_calls.
  - apply fold_handle_body.
  - unfold headersAfter. by apply fold_handle_header_eq.
Qed.

Lemma sw_fold_calls (calls : list handlerCall) (w : statusWriter) :
  rw_calls (sw_ResponseWriter (fold_left statusWriter_handle calls w))
  = rw_calls (sw_ResponseWriter w) ++ clientCalls calls.
Proof.
  revert w. induction calls as [|c calls IH]; intros w; cbn [fold_left].
  - by rewrite app_nil_r.
  - rewrite IH. destruct c; cbn; by rewrite <- ?app_assoc.
Qed.

Lemma sw_fold_header (calls : list handlerCall) (w : statusWriter) (m : modifyingWriter) :
  statusWriter_Header w = rw_Header (mw_ResponseWriter m) →
  statusWriter_Header (fold_left statusWriter_handle calls w)
  = rw_Header (mw_ResponseWriter (fold_left handle calls m)).
Proof.
  revert w m. induction calls as [|c calls IH]; intros w m H; cbn [fold_left]; [done|].
  apply IH. unfold statusWriter_Header in *.
  destruct c; cbn; by rewrite ?H.
Qed.

Lemma sw_fold_status (calls : list handlerCall) (w : statusWriter) :
  sw_status (fold_left statusWriter_handle calls w)
  = if sw_status w =? 0 then firstStatus calls else sw_status w.
Proof.
  revert w. induction calls as [|c calls IH]; intros w; cbn [fold_left].
  - cbn. by destruct (Z.eqb_spec (sw_status w) 0).
  - rewrite IH. destruct c; cbn [statusWriter_handle statusWriter_setHeader
      statusWriter_Write statusWriter_WriteHeader sw_status firstStatus]; try done.
    + unfold StatusOK. destruct (sw_status w =? 0) eqn:E; [done|by rewrite E].
    + destruct (sw_status w =? 0) eqn:E; [done|by rewrite E].
Qed.

(** X19.  The status writer is transparent: every [WriteHeader] and
    [Write] of the handler reaches the client at once, in order and
    unchanged, and the header map is the one the handler makes of it. *)
Theorem statusWriter_forwards_every_call (h : Handler) (sw : statusWriter) (req : Request) :
  let sw' := Handler_ServeHTTP_sw h sw req in
  rw_calls (sw_ResponseWriter sw') = rw_calls (sw_ResponseWriter sw) ++ clientCalls (h req)
  ∧ statusWriter_Header sw' = headersAfter (h req) (statusWriter_Header sw).
Proof.
  intros sw'. unfold sw', Handler_ServeHTTP_sw. split.
  - apply sw_fold_calls.
  - unfold headersAfter. by apply sw_fold_header.
Qed.

(** X20.  The status writer keeps the first status: a status once set is
    never overwritten, and an unset one becomes the code of the first
    [WriteHeader] with a code other than 0, or 200 when a [Write] comes
    first (the capturing writer, in contrast, keeps the last code). *)
Theorem statusWriter_keeps_the_first_status (h : Handler) (sw : statusWriter) (req : Request) :
  sw_status (Handler_ServeHTTP_sw h sw req)
  = if sw_status sw =? 0 then firstStatus (h req) else sw_status sw.
Proof. apply sw_fold_status. Qed.

(** * The earlier ServeHTTP *)

Section streaming_properties.
Context `{L : GoLib}.

(** X21.  The earlier version forwards without buffering: for a path
    other than the two special ones the client receives exactly the calls
    of the handler, and the handler is called once. *)
Theorem streaming_passes_the_response_through (sg : sitemapGenerator) rw req now :
  URL_Path req ≠ sitemapPath sg →
  URL_Path req ≠ robotsPath sg →
  let sv := Streaming.ServeHTTP sg rw req now in
  rw_calls (served_rw sv) = rw_calls rw ++ clientCalls (next sg req)
  ∧ rw_Header (served_rw sv) = headersAfter (next sg req) (rw_Header rw)
  ∧ served_next sv = [req].
Proof.
  intros H1%String.eqb_neq H2%String.eqb_neq sv. unfold sv, Streaming.ServeHTTP.
  rewrite H1, H2. cbn [served_rw served_next].
  unfold Handler_ServeHTTP_sw. split_and!; [|  |done].
  { by rewrite sw_fold_calls. }
  unfold headersAfter. by apply (sw_fold_header (next sg req)
    {| sw_ResponseWriter := rw; sw_status := 0 |}).
Qed.

(** X22.  The earlier version records every page that is not ignored and
    answered with status 200, gzip-encoded or not, readable or not: the
    registry gains the canonical URL exactly when no ignore pattern
    matches and the status, the first one set or 200, is 200. *)
Theorem streaming_records_every_200 (sg : sitemapGenerator) rw req now :
  URL_Path req ≠ sitemapPath sg →
  URL_Path req ≠ robotsPath sg →
  let status := if firstStatus (next sg req) =? 0 then StatusOK
                else firstStatus (next sg req) in
  paths (served_sg (Streaming.ServeHTTP sg rw req now))
  = if negb (isIgnored sg (URL_Path req)) && (status =? StatusOK)
    then {[ requestScheme req +:+ "://" +:+ Host req
            +:+ Strings.TrimSuffix (URL_Path req) "/" ]} ∪ paths sg
    else paths sg.
Proof.
  intros H1%String.eqb_neq H2%String.eqb_neq status. unfold Streaming.ServeHTTP.
  rewrite H1, H2. cbn [served_sg]. unfold Handler_ServeHTTP_sw.
  rewrite sw_fold_status. cbn [sw_status Z.eqb]. fold status. unfold isIgnored.
  by case_match.
Qed.

End streaming_properties.

(** * Package traefik_sitemap_generator *)

Section generator_properties.
Context `{L : GoLib}.

Lemma rw_fold_calls (calls : list handlerCall) (rw : ResponseWriter) :
  rw_calls (fold_left rw_handle calls rw) = rw_calls rw ++ clientCalls calls.
Proof.
  revert rw. induction calls as [|c calls IH]; intros rw; cbn [fold_left].
  - by rewrite app_nil_r.
  - rewrite IH. destruct c; cbn; by rewrite <- ?app_assoc.
Qed.

Lemma no_prefix_of_itself (s : string) : Strings.HasPrefix s (s +:+ "/") = false.
Proof.
  destruct (Strings.HasPrefix s (s +:+ "/")) eqn:E; [|done].
  apply StringsFacts.HasPrefix_spec in E as [r Hr].
  apply (f_equal String.length) in Hr. rewrite !StringsFacts.length_app in Hr.
  cbn in Hr. lia.
Qed.

(** X23.  [New] of the first version needs an output file before
    anything else: without one it fails with [outputFile is required],
    even when an ignore pattern is invalid as well.  With one, and user
    patterns that compile, the generator matches with the user patterns
    alone: this version has no built-in patterns. *)
Theorem Generator_New_needs_an_output_file (h : Handler) (config : Generator.Config)
    (nm : string) :
  (Generator.OutputFile config = EmptyString →
   Generator.New h config nm = inr "outputFile is required")
  ∧ (Generator.OutputFile config ≠ EmptyString →
     ∀ res, Forall2 (λ p re, regexp_Compile p = inl re) (Generator.Ignore config) res →
     ∃ sg, Generator.New h config nm = inl sg
           ∧ Generator.ignores sg = res
           ∧ Generator.paths sg = ∅
           ∧ Generator.outputFile sg = Generator.OutputFile config).
Proof.
  split.
  - intros H. unfold Generator.New. by rewrite H.
  - intros H%String.eqb_neq res Hres. unfold Generator.New. rewrite H.
    rewrite (compileUser_ok _ res) by done. by eexists.
Qed.

(** X24.  The first version records before it forwards: a path that no
    pattern matches is in the registry after the call whatever the
    handler answers, a 404 or a 500 as well, and the client receives the
    calls of the handler as they are. *)
Theorem Generator_records_whatever_the_status (sg : Generator.sitemapGenerator) rw req order :
  URL_Path req ≠ Generator.sitemapPath sg →
  let sv := Generator.ServeHTTP sg rw req order in
  Generator.paths (Generator.served_sg sv)
  = (if existsb (λ re, regexp_MatchString re (URL_Path req)) (Generator.ignores sg)
     then Generator.paths sg
     else {[ requestScheme req +:+ "://" +:+ Host req
             +:+ Strings.TrimSuffix (URL_Path req) "/" ]} ∪ Generator.paths sg)
  ∧ rw_calls (Generator.served_rw sv)
    = rw_calls rw ++ clientCalls (Generator.next sg req)
  ∧ Generator.served_next sv = [req].
Proof.
  intros H%String.eqb_neq sv. unfold sv, Generator.ServeHTTP. rewrite H.
  cbn [Generator.served_sg Generator.served_rw Generator.served_next].
  unfold Handler_ServeHTTP_rw. rewrite rw_fold_calls.
  destruct (existsb _ (Generator.ignores sg)); by split_and!.
Qed.

(** X25.  In the first version the root page is recorded but never
    listed for its own host: a request for [/] that no pattern matches
    puts [base] into the registry, while a sitemap built for a request
    holds exactly the registry URLs that start with [base/], and so never
    [base] itself. *)
Theorem Generator_sitemap_misses_the_root (sg : Generator.sitemapGenerator) rw req order :
  URL_Path req = "/" →
  Generator.sitemapPath sg ≠ "/" →
  existsb (λ re, regexp_MatchString re "/") (Generator.ignores sg) = false →
  let base := requestScheme req +:+ "://" +:+ Host req in
  base ∈ Generator.paths (Generator.served_sg (Generator.ServeHTTP sg rw req order))
  ∧ ∀ order',
      let locs := Generator.Loc <$> Generator.URLs (Generator.buildURLSet order' (Some req)) in
      (base ∉ locs)
      ∧ ∀ u, u ∈ locs ↔ u ∈ order' ∧ Strings.HasPrefix u (base +:+ "/") = true.
Proof.
  intros Hpath Hs Hign base. split.
  - unfold Generator.ServeHTTP. rewrite Hpath.
    apply not_eq_sym, String.eqb_neq in Hs. rewrite Hs, Hign.
    cbn [negb Generator.served_sg Generator.record Generator.paths].
    apply elem_of_union_l, elem_of_singleton.
    change (Strings.TrimSuffix "/" "/") with EmptyString.
    unfold base. by rewrite StringsFacts.app_nil_r.
  - intros order' locs.
    assert (∀ u, u ∈ locs ↔ u ∈ order' ∧ Strings.HasPrefix u (base +:+ "/") = true) as Hlocs.
    { intros u. unfold locs, Generator.buildURLSet, Generator.filterPaths.
      cbn [Generator.URLs]. rewrite <- list_fmap_compose, list_fmap_id.
      rewrite list_elem_of_In, filter_In, <- list_elem_of_In.
      unfold base. by rewrite !StringsFacts.app_assoc. }
    split; [|done]. intros Hin. apply Hlocs in Hin as [_ Hin].
    by rewrite no_prefix_of_itself in Hin.
Qed.

End generator_properties.

(** * The properties at work *)

Lemma generator_New (h : Handler) (config : Config) :
  Demo2.isHandler (New (L := Ref.lib) h config "seo") = true →
  New (L := Ref.lib) h config "seo" = Return (inl (Demo.generator h config)).
Proof.
  unfold Demo.generator. by destruct (New h config "seo") as [[sg|err]|].
Qed.

Lemma shop_serves_products :
  ServeHTTP Demo.shop Demo.client (Demo.get "/products") Demo.instant
  = Return Demo.afterProducts.
Proof. apply (returned_Return _ Demo.shop). by vm_compute. Qed.

Lemma analytics_serves_products :
  ServeHTTP Demo2.analytics Demo.client (Demo.get "/products") Demo.instant
  = Return Demo2.afterAnalytics.
Proof. apply (returned_Return _ Demo2.analytics). by vm_compute. Qed.


(** X1 at work: the shop before and after a page was served. *)
Lemma never_shrinks_witness :
  paths Demo.shop ⊆ paths (served_sg Demo.afterProducts).
Proof.
  apply (registry_never_shrinks Demo.shop (served_sg Demo.afterProducts)).
  apply (reachable_serve Demo.shop Demo.shop Demo.htmlHandler Demo.client
           (Demo.get "/products") Demo.instant Demo.afterProducts).
  - apply reachable_new.
  - apply (returned_Return _ Demo.shop). by vm_compute.
Defined.

(** X2 at work: the same page served a second time. *)
Lemma recorded_again_witness :
  paths (served_sg Demo2.afterProductsTwice) = paths (served_sg Demo.afterProducts).
Proof.
  apply (known_url_is_not_recorded_again (served_sg Demo.afterProducts) Demo.client
           (Demo.get "/products") Demo.instant Demo2.afterProductsTwice).
  - apply elem_of_elements. vm_compute. by left.
  - apply (returned_Return _ Demo.shop). by vm_compute.
Defined.

(** X3 at work. *)
Lemma keeps_configuration_witness :
  next (served_sg Demo.afterProducts) = next Demo.shop
  ∧ name (served_sg Demo.afterProducts) = name Demo.shop
  ∧ sitemapPath (served_sg Demo.afterProducts) = sitemapPath Demo.shop
  ∧ robotsPath (served_sg Demo.afterProducts) = robotsPath Demo.shop
  ∧ ignores (served_sg Demo.afterProducts) = ignores Demo.shop
  ∧ gtmID (served_sg Demo.afterProducts) = gtmID Demo.shop.
Proof.
  apply (ServeHTTP_keeps_configuration Demo.shop Demo.client (Demo.get "/products")
           Demo.instant Demo.afterProducts).
  apply shop_serves_products.
Defined.

(** X4 at work. *)
Lemma one_status_one_body_witness :
  ∃ code b, rw_calls (served_rw Demo.afterProducts)
            = rw_calls Demo.client ++ [CallWriteHeader code; CallWrite b].
Proof.
  apply (client_gets_one_status_then_one_body Demo.shop Demo.client
           (Demo.get "/products") Demo.instant Demo.afterProducts).
  apply shop_serves_products.
Defined.


(** X6 at work: the page announced as gzip, analytics configured. *)
Lemma gzip_fallback_witness :
  ∃ sv, ServeHTTP Demo2.broken Demo.client (Demo.get "/products") Demo.instant = Return sv
        ∧ served_sg sv = Demo2.broken
        ∧ rw_Header (served_rw sv)
          = headersAfter (next Demo2.broken (Demo.get "/products")) (rw_Header Demo.client)
        ∧ rw_calls (served_rw sv)
          = rw_calls Demo.client
            ++ [CallWriteHeader (observedStatus (next Demo2.broken (Demo.get "/products")));
                CallWrite (written (next Demo2.broken (Demo.get "/products")))].
Proof.
  apply (gzip_error_falls_back_to_the_buffered_bytes Demo2.broken Demo.client
           (Demo.get "/products") Demo.instant).
  - vm_compute. discriminate.
  - vm_compute. discriminate.
  - left. vm_compute. reflexivity.
Defined.

(** X7 at work: a page that declares its length, rewritten. *)
Lemma content_length_witness :
  Header_Get (rw_Header (served_rw Demo2.afterAnalytics)) "Content-Length" = EmptyString
  ∧ ∀ key, key ≠ "Content-Length" →
      rw_Header (served_rw Demo2.afterAnalytics) !! key
      = headersAfter (next Demo2.analytics (Demo.get "/products")) (rw_Header Demo.client)
          !! key.
Proof.
  apply (rewrite_drops_content_length_only Demo2.analytics Demo.client
           (Demo.get "/products") Demo.instant Demo2.afterAnalytics).
  - vm_compute. discriminate.
  - vm_compute. discriminate.
  - apply analytics_serves_products.
  - vm_compute. reflexivity.
  - vm_compute. reflexivity.
Defined.

(** X8 at work: the page of the shop gains both blocks. *)
Lemma rewrite_length_witness :
  String.length Demo2.rewritten
  = (String.length Demo.page
     + match Strings.Index Demo.page "</head>" with
       | Some _ => String.length (gtmScriptTemplate "GTM-0000000")
       | None => 0
       end
     + match Ref.FindStringIndex Demo2.bodyTag (insertScript "GTM-0000000" Demo.page) with
       | Some _ => String.length (gtmNoscriptTemplate "GTM-0000000")
       | None => 0
       end)%nat.
Proof.
  apply (rewrite_adds_the_blocks_only (L := Ref.lib) "GTM-0000000" Demo.page
           Demo2.rewritten Demo2.bodyTag).
  - vm_compute. reflexivity.
  - vm_compute. reflexivity.
Defined.



(** X12 at work: the registry of two hosts, delivered backwards. *)
Lemma iteration_order_witness :
  buildURLSet (reverse (snapshot Demo2.twoHosts)) (Some (Demo.get "/sitemap.xml"))
    Demo.instant
  = buildURLSet (snapshot Demo2.twoHosts) (Some (Demo.get "/sitemap.xml")) Demo.instant
  ∧ match xml_MarshalIndent (L := Ref.lib)
            (buildURLSet (reverse (snapshot Demo2.twoHosts))
               (Some (Demo.get "/sitemap.xml")) Demo.instant) with
    | Some output => Some (xml_Header +:+ output)
    | None => None
    end = buildSitemapXML Demo2.twoHosts (Some (Demo.get "/sitemap.xml")) Demo.instant.
Proof.
  apply (sitemap_ignores_iteration_order Demo2.twoHosts).
  apply reverse_Permutation.
Defined.

(** X15 at work: the page of the shop in the sitemap of the shop. *)
Lemma recorded_page_witness :
  requestScheme (Demo.get "/products") +:+ "://" +:+ Host (Demo.get "/products")
    +:+ Strings.TrimSuffix (URL_Path (Demo.get "/products")) "/"
  ∈ Loc <$> URLs (buildURLSet (snapshot (served_sg Demo.afterProducts))
                    (Some (Demo.get "/sitemap.xml")) Demo.instant).
Proof.
  apply (recorded_page_is_listed Demo.shop Demo.client (Demo.get "/products")
           Demo.instant Demo.afterProducts (Demo.get "/sitemap.xml") Demo.instant).
  - vm_compute. discriminate.
  - vm_compute. discriminate.
  - apply shop_serves_products.
  - vm_compute. reflexivity.
  - vm_compute. reflexivity.
  - vm_compute. reflexivity.
  - right. vm_compute. reflexivity.
  - reflexivity.
  - reflexivity.
Defined.

(** X16 at work: a configuration without a sitemap path. *)
Lemma default_paths_witness :
  sitemapPath (Demo.generator Demo.htmlHandler Demo2.partial)
    = (if decide (SitemapPath Demo2.partial = EmptyString)
       then "/sitemap.xml" else SitemapPath Demo2.partial)
  ∧ robotsPath (Demo.generator Demo.htmlHandler Demo2.partial)
    = (if decide (RobotsPath Demo2.partial = EmptyString)
       then "/robots.txt" else RobotsPath Demo2.partial)
  ∧ sitemapPath (Demo.generator Demo.htmlHandler Demo2.partial) ≠ EmptyString
  ∧ robotsPath (Demo.generator Demo.htmlHandler Demo2.partial) ≠ EmptyString
  ∧ gtmID (Demo.generator Demo.htmlHandler Demo2.partial) = GTMID Demo2.partial
  ∧ next (Demo.generator Demo.htmlHandler Demo2.partial) = Demo.htmlHandler
  ∧ name (Demo.generator Demo.htmlHandler Demo2.partial) = "seo".
Proof.
  apply (New_fills_in_default_paths (L := Ref.lib) Demo.htmlHandler Demo2.partial "seo").
  apply generator_New. vm_compute. reflexivity.
Defined.

(** X17 at work: the unbalanced parenthesis is reported, the bracket
    after it is not reached. *)
Lemma first_bad_pattern_witness :
  New (L := Ref.lib) Demo.htmlHandler Demo2.badPatterns "seo"
  = Return (inr ("invalid ignore regex " +:+ "(" +:+ ": "
                 +:+ "error parsing regexp: missing closing ): `(`")).
Proof.
  apply (New_reports_the_first_bad_pattern (L := Ref.lib) Demo.htmlHandler
           Demo2.badPatterns "seo" ["^/admin/.*"] ["["]).
  - reflexivity.
  - repeat constructor. eexists. vm_compute. reflexivity.
  - vm_compute. reflexivity.
Defined.

(** X21 at work: the earlier version and a 404. *)
Lemma streaming_through_witness :
  rw_calls (served_rw (Streaming.ServeHTTP
              (Demo.generator Demo2.notFoundHandler CreateConfig) Demo.client
              (Demo.get "/missing") Demo.instant))
  = rw_calls Demo.client
    ++ clientCalls (next (Demo.generator Demo2.notFoundHandler CreateConfig)
                      (Demo.get "/missing"))
  ∧ rw_Header (served_rw (Streaming.ServeHTTP
                 (Demo.generator Demo2.notFoundHandler CreateConfig) Demo.client
                 (Demo.get "/missing") Demo.instant))
    = headersAfter (next (Demo.generator Demo2.notFoundHandler CreateConfig)
                      (Demo.get "/missing")) (rw_Header Demo.client)
  ∧ served_next (Streaming.ServeHTTP
                   (Demo.generator Demo2.notFoundHandler CreateConfig) Demo.client
                   (Demo.get "/missing") Demo.instant)
    = [Demo.get "/missing"].
Proof.
  apply (streaming_passes_the_response_through
           (Demo.generator Demo2.notFoundHandler CreateConfig) Demo.client
           (Demo.get "/missing") Demo.instant).
  - vm_compute. discriminate.
  - vm_compute. discriminate.
Defined.

(** X22 at work: the earlier version and the page announced as gzip. *)
Lemma streaming_records_witness :
  paths (served_sg (Streaming.ServeHTTP
           (Demo.generator Demo.brokenGzipHandler CreateConfig) Demo.client
           (Demo.get "/products") Demo.instant))
  = if negb (isIgnored (Demo.generator Demo.brokenGzipHandler CreateConfig)
               (URL_Path (Demo.get "/products")))
       && ((if firstStatus (next (Demo.generator Demo.brokenGzipHandler CreateConfig)
                              (Demo.get "/products")) =? 0
            then StatusOK
            else firstStatus (next (Demo.generator Demo.brokenGzipHandler CreateConfig)
                                (Demo.get "/products"))) =? StatusOK)
    then {[ requestScheme (Demo.get "/products") +:+ "://" +:+ Host (Demo.get "/products")
            +:+ Strings.TrimSuffix (URL_Path (Demo.get "/products")) "/" ]}
         ∪ paths (Demo.generator Demo.brokenGzipHandler CreateConfig)
    else paths (Demo.generator Demo.brokenGzipHandler CreateConfig).
Proof.
  apply (streaming_records_every_200
           (Demo.generator Demo.brokenGzipHandler CreateConfig) Demo.client
           (Demo.get "/products") Demo.instant).
  - vm_compute. discriminate.
  - vm_compute. discriminate.
Defined.

(** X23 at work: no output file; an output file and the patterns of the
    README. *)
Lemma Generator_New_witness :
  Generator.New (L := Ref.lib) Demo2.notFoundHandler
    {| Generator.OutputFile := EmptyString; Generator.SitemapPath := "/sitemap.xml";
       Generator.Ignore := ["("] |} "sitemap"
  = inr "outputFile is required"
  ∧ ∃ sg, Generator.New (L := Ref.lib) Demo2.notFoundHandler
            {| Generator.OutputFile := "/tmp/sitemap.xml";
               Generator.SitemapPath := "/sitemap.xml";
               Generator.Ignore := ["^/admin/.*"] |} "sitemap"
          = inl sg
          ∧ Generator.ignores sg
            = [Ref.Seq Ref.BeginText
                 (Ref.Seq (Ref.Lit false "/admin/") (Ref.StarClass true newline))]
          ∧ Generator.paths sg = ∅
          ∧ Generator.outputFile sg = "/tmp/sitemap.xml".
Proof.
  split.
  - apply (Generator_New_needs_an_output_file (L := Ref.lib) Demo2.notFoundHandler
             {| Generator.OutputFile := EmptyString;
                Generator.SitemapPath := "/sitemap.xml";
                Generator.Ignore := ["("] |} "sitemap").
    reflexivity.
  - apply (Generator_New_needs_an_output_file (L := Ref.lib) Demo2.notFoundHandler
             {| Generator.OutputFile := "/tmp/sitemap.xml";
                Generator.SitemapPath := "/sitemap.xml";
                Generator.Ignore := ["^/admin/.*"] |} "sitemap").
    + discriminate.
    + repeat constructor.
Defined.

(** X24 at work: a page that does not exist is recorded. *)
Lemma Generator_records_witness :
  Generator.paths (Generator.served_sg
    (Generator.ServeHTTP Demo2.first Demo.client (Demo.get "/missing") []))
  = (if existsb (λ re, regexp_MatchString re (URL_Path (Demo.get "/missing")))
          (Generator.ignores Demo2.first)
     then Generator.paths Demo2.first
     else {[ requestScheme (Demo.get "/missing") +:+ "://" +:+ Host (Demo.get "/missing")
             +:+ Strings.TrimSuffix (URL_Path (Demo.get "/missing")) "/" ]}
          ∪ Generator.paths Demo2.first)
  ∧ rw_calls (Generator.served_rw
      (Generator.ServeHTTP Demo2.first Demo.client (Demo.get "/missing") []))
    = rw_calls Demo.client
      ++ clientCalls (Generator.next Demo2.first (Demo.get "/missing"))
  ∧ Generator.served_next
      (Generator.ServeHTTP Demo2.first Demo.client (Demo.get "/missing") [])
    = [Demo.get "/missing"].
Proof.
  apply (Generator_records_whatever_the_status Demo2.first Demo.client
           (Demo.get "/missing") []).
  vm_compute. discriminate.
Defined.

(** X25 at work: the root page of example.com. *)
Lemma Generator_root_witness :
  requestScheme (Demo.get "/") +:+ "://" +:+ Host (Demo.get "/")
  ∈ Generator.paths (Generator.served_sg
      (Generator.ServeHTTP Demo2.first Demo.client (Demo.get "/") []))
  ∧ ∀ order',
      let locs := Generator.Loc <$> Generator.URLs
                    (Generator.buildURLSet order' (Some (Demo.get "/"))) in
      (requestScheme (Demo.get "/") +:+ "://" +:+ Host (Demo.get "/") ∉ locs)
      ∧ ∀ u, u ∈ locs
             ↔ u ∈ order'
               ∧ Strings.HasPrefix u
                   ((requestScheme (Demo.get "/") +:+ "://" +:+ Host (Demo.get "/"))
                    +:+ "/") = true.
Proof.
  apply (Generator_sitemap_misses_the_root Demo2.first Demo.client (Demo.get "/") []).
  - reflexivity.
  - vm_compute. discriminate.
  - vm_compute. reflexivity.
Defined.

(** * The recording rule and the two special answers *)

Section rule.
Context `{L : GoLib}.

(** X26.  The recording rule of [ServeHTTP] as the code has it: a
    forwarded request adds its canonical URL to the registry exactly when
    no ignore pattern matches its path, the status is 200, and the call
    was not cut short by a gzip error; otherwise the registry is
    unchanged. *)
Theorem forwarded_request_recording_rule (sg : sitemapGenerator) rw req now sv :
  URL_Path req ≠ sitemapPath sg →
  URL_Path req ≠ robotsPath sg →
  ServeHTTP sg rw req now = Return sv →
  let calls := next sg req in
  let h := headersAfter calls (rw_Header rw) in
  paths (served_sg sv)
  = if negb (existsb (λ re, regexp_MatchString re (URL_Path req)) (ignores sg))
       && (observedStatus calls =? StatusOK)
       && negb (returnsEarly sg h calls)
    then {[ requestScheme req +:+ "://" +:+ Host req
            +:+ Strings.TrimSuffix (URL_Path req) "/" ]} ∪ paths sg
    else paths sg.
Proof. intros H1 H2 H. by apply ServeHTTP_records in H. Qed.

(** X27.  The two answers of the middleware itself.  The sitemap path is
    answered with content type application/xml, status 200 and the
    sitemap document of the request's host; it is tested first, so it
    wins when both paths are configured alike.  The robots path is
    answered with content type text/plain, status 200 and the robots
    text.  Every other key of the header map is left as it was. *)
Theorem special_paths_answers (sg : sitemapGenerator) rw req now :
  (URL_Path req = sitemapPath sg →
   ∃ sv output,
     ServeHTTP sg rw req now = Return sv
     ∧ xml_MarshalIndent (buildURLSet (snapshot sg) (Some req) now) = Some output
     ∧ rw_calls (served_rw sv)
       = rw_calls rw ++ [CallWriteHeader 200; CallWrite (xml_Header +:+ output)]
     ∧ Header_Get (rw_Header (served_rw sv)) "Content-Type" = "application/xml"
     ∧ ∀ key, key ≠ "Content-Type" → rw_Header (served_rw sv) !! key = rw_Header rw !! key)
  ∧ (URL_Path req ≠ sitemapPath sg →
     URL_Path req = robotsPath sg →
     ∃ sv,
       ServeHTTP sg rw req now = Return sv
       ∧ rw_calls (served_rw sv)
         = rw_calls rw ++ [CallWriteHeader 200; CallWrite (buildRobotsTxt sg req)]
       ∧ Header_Get (rw_Header (served_rw sv)) "Content-Type" = "text/plain"
       ∧ ∀ key, key ≠ "Content-Type" → rw_Header (served_rw sv) !! key = rw_Header rw !! key).
Proof.
  split.
  - intros Hs. rewrite ServeHTTP_sitemap by done. unfold buildSitemapXML.
    destruct (xml_MarshalIndent _) as [output|] eqn:E; [|done].
    exists {| served_sg := sg;
              served_rw :=
                rw_Write (rw_WriteHeader
                  (rw_setHeader (λ h, Header_Set h "Content-Type" "application/xml") rw)
                  StatusOK) (xml_Header +:+ output);
              served_next := [] |}, output.
    split_and!; try done.
    + cbn. by rewrite <- app_assoc.
    + cbn. unfold Header_Get, Header_Set. by rewrite lookup_insert_eq.
    + intros key Hne. cbn. unfold Header_Set. by rewrite lookup_insert_ne.
  - intros Hs Hr. rewrite ServeHTTP_robots by done. eexists. split_and!; try done.
    + cbn. by rewrite <- app_assoc.
    + cbn. unfold Header_Get, Header_Set. by rewrite lookup_insert_eq.
    + intros key Hne. cbn. unfold Header_Set. by rewrite lookup_insert_ne.
Qed.

End rule.

(** X26 at work: the page of the shop. *)
Lemma recording_rule_witness :
  paths (served_sg Demo.afterProducts)
  = if negb (existsb (λ re, regexp_MatchString re (URL_Path (Demo.get "/products")))
               (ignores Demo.shop))
       && (observedStatus (next Demo.shop (Demo.get "/products")) =? StatusOK)
       && negb (returnsEarly Demo.shop
                  (headersAfter (next Demo.shop (Demo.get "/products"))
                     (rw_Header Demo.client))
                  (next Demo.shop (Demo.get "/products")))
    then {[ requestScheme (Demo.get "/products") +:+ "://" +:+ Host (Demo.get "/products")
            +:+ Strings.TrimSuffix (URL_Path (Demo.get "/products")) "/" ]}
         ∪ paths Demo.shop
    else paths Demo.shop.
Proof.
  apply (forwarded_request_recording_rule Demo.shop Demo.client (Demo.get "/products")
           Demo.instant Demo.afterProducts).
  - vm_compute. discriminate.
  - vm_compute. discriminate.
  - apply shop_serves_products.
Defined.

(** X27 at work: the sitemap and the robots file of the shop. *)
Lemma special_answers_witness :
  (∃ sv output,
     ServeHTTP Demo.shop Demo.client (Demo.get "/sitemap.xml") Demo.instant = Return sv
     ∧ xml_MarshalIndent (L := Ref.lib)
         (buildURLSet (snapshot Demo.shop) (Some (Demo.get "/sitemap.xml")) Demo.instant)
       = Some output
     ∧ rw_calls (served_rw sv)
       = rw_calls Demo.client ++ [CallWriteHeader 200; CallWrite (xml_Header +:+ output)]
     ∧ Header_Get (rw_Header (served_rw sv)) "Content-Type" = "application/xml"
     ∧ ∀ key, key ≠ "Content-Type" →
         rw_Header (served_rw sv) !! key = rw_Header Demo.client !! key)
  ∧ (∃ sv,
       ServeHTTP Demo.shop Demo.client (Demo.get "/robots.txt") Demo.instant = Return sv
       ∧ rw_calls (served_rw sv)
         = rw_calls Demo.client
           ++ [CallWriteHeader 200;
               CallWrite (buildRobotsTxt Demo.shop (Demo.get "/robots.txt"))]
       ∧ Header_Get (rw_Header (served_rw sv)) "Content-Type" = "text/plain"
       ∧ ∀ key, key ≠ "Content-Type" →
           rw_Header (served_rw sv) !! key = rw_Header Demo.client !! key).
Proof.
  split.
  - apply (special_paths_answers Demo.shop Demo.client (Demo.get "/sitemap.xml")
             Demo.instant).
    vm_compute. reflexivity.
  - apply (special_paths_answers Demo.shop Demo.client (Demo.get "/robots.txt")
             Demo.instant).
    + vm_compute. discriminate.
    + vm_compute. reflexivity.
Defined.
